(** * captcha-ocr: selection, preprocessing and recognition orchestration

    A shallow embedding of the three variants of the repository:
    - the standalone page component   (components/captcha-solver.tsx),
    - the editor panel: its webview script and its extension host,
    - the browser extension: content script and popup.

    JavaScript numbers are IEEE 754 binary64 values: they are modelled by
    Rocq's primitive floats, which are the same format, so that every
    product, sum and comparison below is the one the engine computes.
    Quantities the code only ever produces as integers (bytes of a
    [Uint8ClampedArray], results of [Math.floor], list lengths) are kept
    in [Z] or [nat]. *)

From Stdlib Require Import ZArith Lia List Bool String Ascii.
From Stdlib Require Import PrimFloat FloatOps SpecFloat FloatAxioms.
From Stdlib Require Uint63.
From stdpp Require Import base option list.

#[local] Set Warnings "-inexact-float".
#[local] Open Scope Z_scope.

(* ===================================================================== *)
(** ** JavaScript numbers *)
(* ===================================================================== *)

Module Js.

(** An integer seen as a Number (exact for |z| < 2^53). *)
Definition Number_of_int (z : Z) : float :=
  if z <? 0 then (- of_uint63 (Uint63.of_Z (- z)))%float
  else of_uint63 (Uint63.of_Z z).

(** Reading a typed array out of range yields [undefined], which every
    arithmetic operator and comparison turns into NaN. *)
Definition ToNumber (o : option Z) : float :=
  match o with
  | Some v => Number_of_int v
  | None => nan
  end.

(** [isFinite(x)] and [Number.isNaN(x)] on a Number. *)
Definition isFinite (x : float) : bool := is_finite x.
Definition Number_isNaN (x : float) : bool := is_nan x.

(** Truthiness of a Number: NaN, +0 and -0 are falsy. *)
Definition truthy (x : float) : bool := negb (is_nan x || is_zero x).

(** [Math.round]: the integer closest to x, ties towards +Infinity; NaN,
    infinities and zeros are returned unchanged and a negative argument
    that rounds to zero gives -0.  The finite case is computed exactly,
    on the mantissa and exponent of the argument. *)
Definition Math_round (x : float) : float :=
  match Prim2SF x with
  | S754_finite s m e =>
      if 0 <=? e then x
      else
        let d := 2 ^ (- e) in
        let sm := if s then Z.neg m else Z.pos m in
        let n := (2 * sm + d) / (2 * d) in
        if n =? 0 then (if s then neg_zero else zero) else Number_of_int n
  | _ => x
  end.

(** [Math.floor], computed exactly in the same way. *)
Definition Math_floor (x : float) : float :=
  match Prim2SF x with
  | S754_finite s m e =>
      if 0 <=? e then x
      else
        let sm := if s then Z.neg m else Z.pos m in
        Number_of_int (sm / 2 ^ (- e))
  | _ => x
  end.

(** [Math.max] and [Math.min] of two Numbers: NaN if either is NaN, and
    +0 is larger than -0. *)
Definition Math_max (a b : float) : float :=
  if is_nan a || is_nan b then nan
  else if (a <? b)%float then b
  else if (b <? a)%float then a
  else if get_sign a then b else a.

Definition Math_min (a b : float) : float :=
  if is_nan a || is_nan b then nan
  else if (a <? b)%float then a
  else if (b <? a)%float then b
  else if get_sign a then a else b.

(** Clamping an integer to the range of a byte. *)
Definition clamp8 (z : Z) : Z := Z.max 0 (Z.min 255 z).

(** The integer nearest to (-1)^s * m * 2^e, ties to even. *)
Definition round_half_even (s : bool) (m : positive) (e : Z) : Z :=
  let mag :=
    if 0 <=? e then Z.pos m * 2 ^ e
    else
      let d := 2 ^ (- e) in
      let f := Z.pos m / d in
      let r2 := 2 * (Z.pos m mod d) in
      if d <? r2 then f + 1
      else if r2 <? d then f
      else if Z.even f then f else f + 1 in
  if s then - mag else mag.

(** The conversion applied by a store into a [Uint8ClampedArray]
    (ToUint8Clamp): NaN becomes 0, the value is clamped to [0, 255] and
    rounded to the nearest integer, ties to even. *)
Definition ToUint8Clamp (x : float) : Z :=
  match Prim2SF x with
  | S754_nan => 0
  | S754_zero _ => 0
  | S754_infinity s => if s then 0 else 255
  | S754_finite s m e => clamp8 (round_half_even s m e)
  end.

Definition is_byte (z : Z) : Prop := 0 <= z <= 255.

End Js.

(* ===================================================================== *)
(** ** JavaScript strings *)
(* ===================================================================== *)

(** A string is its sequence of UTF-16 code units. *)
Definition jsstring := list Z.

Module JsString.

(** A literal of ASCII characters. *)
Definition lit (s : string) : jsstring :=
  map (fun a => Z.of_N (N_of_ascii a)) (list_ascii_of_string s).

(** The characters matched by [\s] and stripped by [trim]: WhiteSpace and
    LineTerminator of ECMAScript. *)
Definition is_ws (c : Z) : bool :=
  ((9 <=? c) && (c <=? 13))
  || (c =? 32) || (c =? 160) || (c =? 5760)
  || ((8192 <=? c) && (c <=? 8202))
  || (c =? 8232) || (c =? 8233) || (c =? 8239) || (c =? 8287)
  || (c =? 12288) || (c =? 65279).

Definition not_ws (c : Z) : bool := negb (is_ws c).

Fixpoint trimStart (s : jsstring) : jsstring :=
  match s with
  | c :: s' => if is_ws c then trimStart s' else s
  | [] => []
  end.

Definition trimEnd (s : jsstring) : jsstring :=
  rev (trimStart (rev s)).

(** [s.trim()] *)
Definition trim (s : jsstring) : jsstring := trimEnd (trimStart s).

(** [s.replace(/\s+/g, repl)]: every maximal run of whitespace is
    replaced by [repl].  [in_run] tells that the previous character
    belongs to the run being consumed. *)
Fixpoint replace_ws_from (in_run : bool) (repl s : jsstring) : jsstring :=
  match s with
  | [] => []
  | c :: s' =>
      if is_ws c
      then (if in_run then [] else repl) ++ replace_ws_from true repl s'
      else c :: replace_ws_from false repl s'
  end.

Definition replace_ws_runs (repl s : jsstring) : jsstring :=
  replace_ws_from false repl s.

(** [a.join(sep)] on an array of strings. *)
Fixpoint join (sep : jsstring) (l : list jsstring) : jsstring :=
  match l with
  | [] => []
  | [a] => a
  | a :: l' => a ++ sep ++ join sep l'
  end.

(** [v || d] on a possibly missing string: the empty string is falsy. *)
Definition or_else (v : option jsstring) (d : jsstring) : jsstring :=
  match v with
  | Some (c :: s) => c :: s
  | _ => d
  end.

End JsString.

(** The arithmetic mean of a list of Numbers, summed from the left. *)
Definition arith_mean (l : list float) : float :=
  (fold_left add l zero / Js.Number_of_int (Z.of_nat (length l)))%float.

(* ===================================================================== *)
(** ** The pixel loop shared by every preprocessing stage *)
(* ===================================================================== *)

(** [for (let i = 0; i < data.length; i += 4) body] over the RGBA bytes of
    an [ImageData].  A store past the end of a typed array is ignored,
    which is what stdpp's list insert does. *)

Section PixelLoop.

Variable body : nat -> list Z -> list Z.

Fixpoint for_px (fuel i : nat) (data : list Z) : list Z :=
  match fuel with
  | O => data
  | S fuel' =>
      if (i <? length data)%nat
      then for_px fuel' (i + 4) (body i data)
      else data
  end.

Definition for_each_px (data : list Z) : list Z :=
  for_px (length data) 0 data.

End PixelLoop.

(** The luminance expression of both pixel pipelines:
    [0.299 * r + 0.587 * g + 0.114 * b]. *)
Definition luma (r g b : float) : float :=
  (0.299 * r + 0.587 * g + 0.114 * b)%float.

(** The colour channels of the pixel that starts at i. *)
Definition in_rgb (i j : nat) : Prop :=
  j = i \/ j = (i + 1)%nat \/ j = (i + 2)%nat.

(** [data[i] = v; data[i + 1] = v; data[i + 2] = v] *)
Definition set_rgb (i : nat) (v : Z) (data : list Z) : list Z :=
  <[(i + 2)%nat := v]> (<[(i + 1)%nat := v]> (<[i := v]> data)).

(* ===================================================================== *)
(** ** Page component: components/captcha-solver.tsx *)
(* ===================================================================== *)

Module PageComponent.

(** The preprocessing state of the component. *)
Record config := Config {
  grayscale : bool;
  invert : bool;
  thresholdEnabled : bool;
  threshold : Z;          (* slider, min 0 max 255 step 1 *)
  scale : Z               (* slider, min 1 max 4 step 1 *)
}.

Definition with_invert (b : bool) (c : config) : config :=
  Config (grayscale c) b (thresholdEnabled c) (threshold c) (scale c).

(** The value the grayscale loop stores for a pixel:
    [l = Math.round(luma)] written into the clamped array. *)
Definition gray_of (r g b : option Z) : Z :=
  Js.ToUint8Clamp
    (Js.Math_round (luma (Js.ToNumber r) (Js.ToNumber g) (Js.ToNumber b))).

Definition grayscale_body (i : nat) (data : list Z) : list Z :=
  let r := data !! i in
  let g := data !! (i + 1)%nat in
  let b := data !! (i + 2)%nat in
  set_rgb i (gray_of r g b) data.

(** [const bin = v > threshold ? 255 : 0] *)
Definition bin_of (t : Z) (v : option Z) : Z :=
  match v with
  | Some v => if t <? v then 255 else 0
  | None => 0
  end.

Definition threshold_body (t : Z) (i : nat) (data : list Z) : list Z :=
  set_rgb i (bin_of t (data !! i)) data.

(** [data[k] = 255 - data[k]] *)
Definition invert_at (k : nat) (data : list Z) : list Z :=
  match data !! k with
  | Some v => <[k := Js.clamp8 (255 - v)]> data
  | None => data
  end.

Definition invert_body (i : nat) (data : list Z) : list Z :=
  invert_at (i + 2) (invert_at (i + 1) (invert_at i data)).

Definition grayscale_stage := for_each_px grayscale_body.
Definition threshold_stage (t : Z) := for_each_px (threshold_body t).
Definition invert_stage := for_each_px invert_body.

(** The three loops of [drawToCanvas], run on the bytes returned by
    [getImageData] (the image already drawn at the scaled size). *)
Definition preprocess (c : config) (data : list Z) : list Z :=
  let d1 := if grayscale c || thresholdEnabled c
            then grayscale_stage data else data in
  let d2 := if thresholdEnabled c
            then threshold_stage (threshold c) d1 else d1 in
  if invert c then invert_stage d2 else d2.

(** What [Tesseract.recognize] resolves to, as far as [runOcr] reads it:
    [data.text], [data.confidence] and the confidence of each word. *)
Record tess_data := TessData {
  text : option jsstring;
  confidence : option float;         (* present when typeof is "number" *)
  words : option (list (option float))  (* [w?.confidence] of each word *)
}.

Record OcrResult := MkResult {
  r_text : jsstring;
  r_confidence : float;
  r_durationMs : Z
}.

(** [(data?.text || "").trim().replace(/\s+/g, "")] *)
Definition result_text (data : option tess_data) : jsstring :=
  JsString.replace_ws_runs []
    (JsString.trim (JsString.or_else (data ≫= text) [])).

(** [w?.confidence || 0] *)
Definition word_conf (w : option float) : float :=
  match w with
  | Some c => if Js.truthy c then c else zero
  | None => zero
  end.

(** [data.words.reduce((acc, w) => acc + (w?.confidence || 0), 0)
      / data.words.length] *)
Definition words_avg (ws : list (option float)) : float :=
  (fold_left (fun acc w => acc + word_conf w) ws zero
     / Js.Number_of_int (Z.of_nat (length ws)))%float.

(** [typeof data?.confidence === "number" ? data.confidence : 0] *)
Definition overall (data : option tess_data) : float :=
  match data ≫= confidence with
  | Some c => c
  | None => zero
  end.

Definition result_confidence (data : option tess_data) : float :=
  let confidence := overall data in
  match data ≫= words with
  | Some (w :: ws) =>
      let avg := words_avg (w :: ws) in
      if Js.isFinite avg then avg else confidence
  | _ => confidence
  end.

(** The value passed to [setResult] when the recognition resolves. *)
Definition runOcr_result (data : option tess_data) (durationMs : Z)
  : OcrResult :=
  MkResult (result_text data) (result_confidence data) durationMs.

End PageComponent.

(* ===================================================================== *)
(** ** Editor panel: messages between the webview and the extension host *)
(* ===================================================================== *)

Module Protocol.

(** The image sent for recognition: [cropToDataUrl] encodes the canvas
    region [x, y, w, h], scaled and binarised with the given values. *)
Record data_url := DataUrl {
  crop_x : Z; crop_y : Z; crop_w : Z; crop_h : Z;
  crop_threshold : float;
  crop_scale : float
}.

(** [{ type: "run-ocr", dataUrl, threshold, scale }] *)
Record run_ocr := RunOcr {
  dataUrl : data_url;
  threshold : float;
  scale : float
}.

(** [payload] of an "ocr-result" message. *)
Record payload := Payload {
  text : option jsstring;
  confidence : option float;
  durationMs : option Z
}.

Inductive host_msg :=
| OcrResult (p : option payload)     (* { type: "ocr-result", payload } *)
| OcrError (message : jsstring).     (* { type: "ocr-error", message } *)

End Protocol.

(* ===================================================================== *)
(** ** Editor panel: the webview script *)
(* ===================================================================== *)

Module Webview.
Import Protocol.

(** [canvas._drawInfo] *)
Record draw_info := DrawInfo {
  offsetX : Z; offsetY : Z; drawW : Z; drawH : Z
}.

(** The crop rectangle state. *)
Record selection := Selection {
  isDragging : bool;
  startX : Z; startY : Z; endX : Z; endY : Z
}.

Record rect := Rect { x : Z; y : Z; w : Z; h : Z }.

(** The text of the confidence and duration labels. *)
Inductive conf_label :=
| ConfDash                      (* "—" *)
| ConfNA                        (* "n/a" *)
| ConfPercent (c : float).      (* `${Number(c).toFixed(1)}%` *)

Inductive dur_label :=
| DurDash                       (* "—" *)
| DurMs (d : Z).                (* `${d} ms` *)

Record display := Display {
  output_value : jsstring;
  confEl : conf_label;
  durEl : dur_label;
  btnCopy_disabled : bool;
  busy : bool                   (* set by [setBusy] *)
}.

Record state := State {
  hasImage : bool;
  sel : selection;
  drawInfo : option draw_info;
  thr_value : float;            (* Number(thr.value) *)
  scale_value : float;          (* Number(scale.value) *)
  ocrTimer : option Z;          (* time at which the pending timeout fires *)
  ui : display;
  posted : list run_ocr         (* vscode.postMessage, oldest first *)
}.

Definition set_sel (s : selection) (st : state) : state :=
  State (hasImage st) s (drawInfo st) (thr_value st) (scale_value st)
    (ocrTimer st) (ui st) (posted st).
Definition set_thr (v : float) (st : state) : state :=
  State (hasImage st) (sel st) (drawInfo st) v (scale_value st)
    (ocrTimer st) (ui st) (posted st).
Definition set_scale (v : float) (st : state) : state :=
  State (hasImage st) (sel st) (drawInfo st) (thr_value st) v
    (ocrTimer st) (ui st) (posted st).
Definition set_timer (t : option Z) (st : state) : state :=
  State (hasImage st) (sel st) (drawInfo st) (thr_value st) (scale_value st)
    t (ui st) (posted st).
Definition set_ui (d : display) (st : state) : state :=
  State (hasImage st) (sel st) (drawInfo st) (thr_value st) (scale_value st)
    (ocrTimer st) d (posted st).
Definition postMessage (m : run_ocr) (st : state) : state :=
  State (hasImage st) (sel st) (drawInfo st) (thr_value st) (scale_value st)
    (ocrTimer st) (ui st) (posted st ++ [m]).

Definition setBusy (b : bool) (st : state) : state :=
  let d := ui st in
  set_ui (Display (output_value d) (confEl d) (durEl d)
            (btnCopy_disabled d) b) st.

(** [clearTimeout(ocrTimer); ocrTimer = setTimeout(() => runOcrNow(), 450)]
    at time [now] (milliseconds). *)
Definition scheduleOcr (now : Z) (st : state) : state :=
  if negb (hasImage st) then st
  else set_timer (Some (now + 450)) st.

Definition getThresholdVal (st : state) : float :=
  let v := thr_value st in
  if Js.isFinite v then Js.Math_max 0 (Js.Math_min 255 v) else 160%float.

Definition getScaleVal (st : state) : float :=
  let v := scale_value st in
  if Js.isFinite v then Js.Math_max 1 (Js.Math_min 4 v) else 2%float.

Definition withinImage (st : state) (x y : Z) : bool :=
  match drawInfo st with
  | None => false
  | Some i =>
      (offsetX i <=? x) && (x <=? offsetX i + drawW i)
      && (offsetY i <=? y) && (y <=? offsetY i + drawH i)
  end.

Definition normalizedRect (st : state) : option rect :=
  let s := sel st in
  let x := Z.min (startX s) (endX s) in
  let y := Z.min (startY s) (endY s) in
  let w := Z.abs (endX s - startX s) in
  let h := Z.abs (endY s - startY s) in
  if (w =? 0) || (h =? 0) then None else Some (Rect x y w h).

(** Redrawing recomputes [canvas._drawInfo] from the size of the canvas
    element and of the image, which no handler below changes. *)
Definition selectFullImageRegion (st : state) : state :=
  match drawInfo st with
  | None => st
  | Some i =>
      set_sel (Selection (isDragging (sel st)) (offsetX i) (offsetY i)
                 (offsetX i + drawW i) (offsetY i + drawH i)) st
  end.

(** The geometry of [cropToDataUrl]; its pixel loop is [binarize]. *)
Definition cropToDataUrl (st : state) (threshold scale : float) : data_url :=
  let s := sel st in
  let x := Z.min (startX s) (endX s) in
  let y := Z.min (startY s) (endY s) in
  let w := Z.max 1 (Z.abs (endX s - startX s)) in
  let h := Z.max 1 (Z.abs (endY s - startY s)) in
  DataUrl x y w h threshold scale.

(** [const v = y >= threshold ? 255 : 0] for the pixel at i. *)
Definition bin_at (threshold : float) (i : nat) (data : list Z) : Z :=
  let r := Js.ToNumber (data !! i) in
  let g := Js.ToNumber (data !! (i + 1)%nat) in
  let b := Js.ToNumber (data !! (i + 2)%nat) in
  let y := luma r g b in
  if (threshold <=? y)%float then 255 else 0.

(** The grayscale + threshold loop of [cropToDataUrl]. *)
Definition binarize_body (threshold : float) (i : nat) (data : list Z)
  : list Z :=
  let v := bin_at threshold i data in
  <[(i + 3)%nat := 255]>
    (<[i := v]> (<[(i + 1)%nat := v]> (<[(i + 2)%nat := v]> data))).

Definition binarize (threshold : float) : list Z -> list Z :=
  for_each_px (binarize_body threshold).

Definition degenerate (r : option rect) : bool :=
  match r with
  | None => true
  | Some r => (w r <? 2) || (h r <? 2)
  end.

Definition runOcrNow (st : state) : state :=
  if negb (hasImage st) then st
  else
    let st1 := if degenerate (normalizedRect st)
               then selectFullImageRegion st else st in
    let thrValNum := getThresholdVal st1 in
    let scaleNum := getScaleVal st1 in
    let cropUrl := cropToDataUrl st1 thrValNum scaleNum in
    postMessage (RunOcr cropUrl thrValNum scaleNum) (setBusy true st1).

(** The canvas and window listeners; [x], [y] are [clientToCanvas(e)]. *)
Definition onMouseDown (x y : Z) (st : state) : state :=
  if negb (hasImage st) then st
  else if negb (withinImage st x y) then st
  else set_sel (Selection true x y x y) st.

Definition onMouseMove (x y : Z) (st : state) : state :=
  let s := sel st in
  if negb (isDragging s) then st
  else set_sel (Selection true (startX s) (startY s) x y) st.

Definition onMouseUp (now : Z) (x y : Z) (st : state) : state :=
  let s := sel st in
  if negb (isDragging s) then st
  else scheduleOcr now
         (set_sel (Selection false (startX s) (startY s) x y) st).

(** The slider listeners; [v] is the new [Number(value)] of the slider. *)
Definition onThrInput (now : Z) (v : float) (st : state) : state :=
  scheduleOcr now (set_thr v st).

Definition onScaleInput (now : Z) (v : float) (st : state) : state :=
  scheduleOcr now (set_scale v st).

Definition onClickOcr (st : state) : state :=
  if negb (hasImage st) then st else runOcrNow st.

(** The window "message" listener. *)
Definition onMessage (msg : host_msg) (st : state) : state :=
  match msg with
  | OcrResult p =>
      let text := p ≫= text in
      let confidence := p ≫= confidence in
      let durationMs := p ≫= durationMs in
      let shown := JsString.or_else text [] in
      set_ui (Display shown
                (match confidence with
                 | Some c => ConfPercent c
                 | None => ConfNA
                 end)
                (match durationMs with
                 | Some d => DurMs d
                 | None => DurDash
                 end)
                (match shown with [] => true | _ => false end)
                false) st
  | OcrError message =>
      set_ui (Display (JsString.lit "Error: " ++ message)
                ConfDash DurDash true false) st
  end.

(** *** The event loop with a virtual clock *)

Inductive event :=
| ThrInput (v : float)
| ScaleInput (v : float)
| MouseDown (x y : Z)
| MouseMove (x y : Z)
| MouseUp (x y : Z)
| ClickOcr
| Message (m : host_msg).

(** [setBusy(true)] disables the manual button, and a disabled button
    receives no click: [ClickOcr] reaches its listener only while the
    panel is not busy.  The sliders and the canvas are never disabled. *)
Definition handle (now : Z) (e : event) (st : state) : state :=
  match e with
  | ThrInput v => onThrInput now v st
  | ScaleInput v => onScaleInput now v st
  | MouseDown x y => onMouseDown x y st
  | MouseMove x y => onMouseMove x y st
  | MouseUp x y => onMouseUp now x y st
  | ClickOcr => if busy (ui st) then st else onClickOcr st
  | Message m => onMessage m st
  end.

(** The timeout callback, run once the pending timeout is due. *)
Definition fire (st : state) : state :=
  runOcrNow (set_timer None st).

Definition tick (now : Z) (st : state) : state :=
  match ocrTimer st with
  | Some deadline => if deadline <=? now then fire st else st
  | None => st
  end.

(** Events are dispatched in the order of their timestamps; a timeout
    that is due runs before the event that follows it. *)
Definition step (st : state) (te : Z * event) : state :=
  handle (fst te) (snd te) (tick (fst te) st).

Definition run (st : state) (evs : list (Z * event)) : state :=
  fold_left step evs st.

(** Letting the clock run until no timeout is pending. *)
Definition settle (st : state) : state :=
  match ocrTimer st with
  | Some _ => fire st
  | None => st
  end.

(** Whether the handler of [e] reaches [scheduleOcr] in state [st]. *)
Definition triggers (st : state) (e : event) : bool :=
  match e with
  | ThrInput _ | ScaleInput _ => true
  | MouseUp _ _ => isDragging (sel st)
  | _ => false
  end.

(** A burst of events in which every event arrives before the quiet
    period opened by the latest triggering event has elapsed, and which
    does not use the manual button.  [deadline] is the end of the quiet
    period that is open when the burst starts, if any. *)
Fixpoint within_quiet_period (deadline : option Z) (st : state)
    (evs : list (Z * event)) : Prop :=
  match evs with
  | [] => True
  | (now, e) :: evs' =>
      e <> ClickOcr
      /\ match deadline with Some d => now < d | None => True end
      /\ within_quiet_period
           (if triggers st e then Some (now + 450) else deadline)
           (handle now e st) evs'
  end.

(** Whether some event of the burst is a triggering event. *)
Fixpoint some_trigger (st : state) (evs : list (Z * event)) : bool :=
  match evs with
  | [] => false
  | (now, e) :: evs' =>
      triggers st e || some_trigger (handle now e st) evs'
  end.

(** The slider values after the burst: those of the last input events. *)
Definition last_thr (evs : list (Z * event)) (v0 : float) : float :=
  fold_left (fun acc te => match snd te with ThrInput v => v | _ => acc end)
    evs v0.

Definition last_scale (evs : list (Z * event)) (v0 : float) : float :=
  fold_left
    (fun acc te => match snd te with ScaleInput v => v | _ => acc end)
    evs v0.

End Webview.

(* ===================================================================== *)
(** ** The response of the OCR.space service *)
(* ===================================================================== *)

Module OcrSpace.

(** [ErrorMessage] is absent, a string or an array of strings. *)
Inductive error_message :=
| EMAbsent
| EMString (s : jsstring)
| EMArray (l : list jsstring).

Record parsed_result := ParsedResult {
  ParsedText : option jsstring;
  MeanConfidence : option float;          (* present when a number *)
  WordConfidences : option (list float)   (* the array, after map(Number) *)
}.

Record json := Json {
  IsErroredOnProcessing : bool;
  ErrorMessage : error_message;
  ParsedResults : list parsed_result
}.

(** What [fetch] resolves to: [res.ok], the text used in the message of a
    non-success status, and the parsed body. *)
Record response := Response {
  ok : bool;
  status_text : jsstring;    (* `${res.status} ${res.statusText} ${text}` *)
  body : json
}.

End OcrSpace.

(* ===================================================================== *)
(** ** Editor panel: the extension host *)
(* ===================================================================== *)

Module ExtensionHost.
Import OcrSpace.

Record ocr_ok := OcrOk {
  text : jsstring;
  confidence : option float       (* [undefined] when not computed *)
}.

(** An async call either returns or throws an [Error] with a message. *)
Inductive outcome :=
| Returned (r : ocr_ok)
| Thrown (message : jsstring).

(** [new Error(msg).message]: an undefined argument leaves it empty. *)
Definition Error_message (msg : option jsstring) : jsstring :=
  match msg with
  | Some s => s
  | None => []
  end.

(** [vals.reduce((a, b) => a + b, 0) / vals.length] *)
Definition mean (vals : list float) : float :=
  (fold_left (fun a b => a + b) vals zero
     / Js.Number_of_int (Z.of_nat (length vals)))%float.

Definition word_confidence (parsed : option parsed_result) : option float :=
  match parsed ≫= WordConfidences with
  | Some (c :: cs) =>
      let vals :=
        List.filter (fun v => negb (Js.Number_isNaN v)) (c :: cs) in
      match vals with
      | [] => None
      | _ => Some (mean vals)
      end
  | _ => None
  end.

Definition callOcrSpace (res : response) : outcome :=
  if negb (ok res)
  then Thrown (JsString.lit "OCR API error: " ++ status_text res)
  else
    let data := body res in
    if IsErroredOnProcessing data
    then
      let msg :=
        match ErrorMessage data with
        | EMArray l => head l
        | EMString s => Some (JsString.or_else (Some s)
                                (JsString.lit "OCR processing error"))
        | EMAbsent => Some (JsString.lit "OCR processing error")
        end in
      Thrown (Error_message msg)
    else
      let parsed := head (ParsedResults data) in
      let text := JsString.trim
                    (JsString.or_else (parsed ≫= ParsedText) []) in
      Returned (OcrOk text (word_confidence parsed)).

(** [String(err?.message || err)]: an [Error] with an empty message
    prints as its name. *)
Definition error_string (message : jsstring) : jsstring :=
  JsString.or_else (Some message) (JsString.lit "Error").

(** The reply of [onDidReceiveMessage] to one "run-ocr" message, given
    what the service answered and the measured duration. *)
Definition reply (res : response) (durationMs : Z) : Protocol.host_msg :=
  match callOcrSpace res with
  | Returned r =>
      Protocol.OcrResult
        (Some (Protocol.Payload (Some (text r)) (confidence r)
                 (Some durationMs)))
  | Thrown message => Protocol.OcrError (error_string message)
  end.

End ExtensionHost.

(* ===================================================================== *)
(** ** Browser extension: the content script *)
(* ===================================================================== *)

Module ContentScript.

(** The position and size written to the style of the selection box. *)
Record box_style := BoxStyle {
  left : float; top : float; width : float; height : float
}.

Record state := State {
  overlay : bool;               (* the overlay element exists *)
  box : option box_style;
  startX : float;
  startY : float;
  active : bool
}.

Record rect := Rect { x : float; y : float; w : float; h : float }.

(** [{ type: "CROP_DONE", rect: { x, y, w, h, dpr } }] *)
Record crop_done := CropDone {
  m_x : float; m_y : float; m_w : float; m_h : float; m_dpr : float
}.

(** [v || d] on Numbers. *)
Definition num_or (v d : float) : float := if Js.truthy v then v else d.

Definition removeOverlay (st : state) : state :=
  State false None (startX st) (startY st) false.

Definition createOverlay (st : state) : state :=
  let st := if overlay st then removeOverlay st else st in
  State true (Some (BoxStyle 0 0 0 0)) (startX st) (startY st) (active st).

Definition updateBox (x y w h : float) (st : state) : state :=
  match box st with
  | None => st
  | Some _ =>
      State (overlay st) (Some (BoxStyle x y w h))
        (startX st) (startY st) (active st)
  end.

(** [Number.parseFloat(box.style.left) || 0] and so on: the style is
    read back as the number that was written. *)
Definition getBoxRect (st : state) : rect :=
  match box st with
  | None => Rect 0 0 0 0
  | Some b =>
      Rect (num_or (left b) 0) (num_or (top b) 0)
        (num_or (width b) 0) (num_or (height b) 0)
  end.

Definition onMouseDown (button : Z) (clientX clientY : float) (st : state)
  : state :=
  if negb (button =? 0) then st
  else
    updateBox clientX clientY 0 0
      (State (overlay st) (box st) clientX clientY true).

Definition onMouseMove (clientX clientY : float) (st : state) : state :=
  if negb (active st) then st
  else
    let x := Js.Math_min (startX st) clientX in
    let y := Js.Math_min (startY st) clientY in
    let w := abs (clientX - startX st) in
    let h := abs (clientY - startY st) in
    updateBox x y w h st.

(** [onMouseUp] returns the new state and the messages it sends;
    [devicePixelRatio] is the value of the window property. *)
Definition onMouseUp (devicePixelRatio : float) (st : state)
  : state * list crop_done :=
  if negb (active st) then (st, [])
  else
    let st := State (overlay st) (box st) (startX st) (startY st) false in
    let rect := getBoxRect st in
    if (w rect <? 2)%float || (h rect <? 2)%float
    then (removeOverlay st, [])
    else
      (removeOverlay st,
       [CropDone (x rect) (y rect) (w rect) (h rect)
          (num_or devicePixelRatio 1)]).

Definition onKeyDown (is_escape : bool) (st : state) : state :=
  if is_escape then removeOverlay st else st.

End ContentScript.

(* ===================================================================== *)
(** ** Browser extension: the popup *)
(* ===================================================================== *)

Module Popup.
Import OcrSpace.

(** The source rectangle of [drawImage] in the captured screenshot. *)
Record source_rect := SourceRect {
  sx : float; sy : float; sw : float; sh : float
}.

(** The [CROP_DONE] listener. *)
Definition onCropDone (m : ContentScript.crop_done) : source_rect :=
  let dpr := ContentScript.m_dpr m in
  SourceRect
    (Js.Math_max 0 (Js.Math_round (ContentScript.m_x m * dpr)))
    (Js.Math_max 0 (Js.Math_round (ContentScript.m_y m * dpr)))
    (Js.Math_max 1 (Js.Math_round (ContentScript.m_w m * dpr)))
    (Js.Math_max 1 (Js.Math_round (ContentScript.m_h m * dpr))).

(** What the click handler of the OCR button shows. *)
Inductive shown :=
| ShownText (text : jsstring) (conf : option float)
| ShownError (ocrText : jsstring).

(** The message of the [Error] thrown when the response is missing or
    flagged. *)
Definition thrown_message (j : option json) : jsstring :=
  match j with
  | Some d =>
      match ErrorMessage d with
      | EMArray l => JsString.join (JsString.lit ", ") l
      | EMString s => JsString.or_else (Some s) (JsString.lit "OCR failed")
      | EMAbsent => JsString.lit "OCR failed"
      end
  | None => JsString.lit "OCR failed"
  end.

(** [`OCR error: ${e?.message || e}`] *)
Definition error_text (message : jsstring) : jsstring :=
  JsString.lit "OCR error: "
    ++ JsString.or_else (Some message) (JsString.lit "Error").

Definition onClickOcr (j : option json) : shown :=
  let errored :=
    match j with
    | Some d => IsErroredOnProcessing d
    | None => true
    end in
  if errored then ShownError (error_text (thrown_message j))
  else
    let parsed := j ≫= (fun d => head (ParsedResults d)) in
    let text := JsString.trim
                  (JsString.or_else (parsed ≫= ParsedText) []) in
    ShownText text (parsed ≫= MeanConfidence).

(** The conversion as the specification words it: x and y rounded,
    w and h floored and clamped to a minimum of 1. *)
Definition device_rect_as_specified (m : ContentScript.crop_done)
  : source_rect :=
  let dpr := ContentScript.m_dpr m in
  SourceRect
    (Js.Math_round (ContentScript.m_x m * dpr))
    (Js.Math_round (ContentScript.m_y m * dpr))
    (Js.Math_max 1 (Js.Math_floor (ContentScript.m_w m * dpr)))
    (Js.Math_max 1 (Js.Math_floor (ContentScript.m_h m * dpr))).

End Popup.

(* ===================================================================== *)
(** ** Editor panel: webview and host together *)
(* ===================================================================== *)

Module Panel.

(** The host starts one call per "run-ocr" message and the calls run
    concurrently; [inflight] lists the calls not yet answered, each by
    the position of its request in [posted]. *)
Record system := System {
  view : Webview.state;
  inflight : list nat
}.

Inductive sys_event :=
| Input (now : Z) (e : Webview.event)       (* an event in the webview *)
| Idle (now : Z)                            (* the clock reaches [now] *)
| Completes (k : nat) (res : OcrSpace.response) (durationMs : Z).

(** The requests posted by a step of the webview are picked up by the
    host. *)
Definition pick_up (before : nat) (v : Webview.state) (fl : list nat)
  : list nat :=
  fl ++ seq before (length (Webview.posted v) - before).

Definition sys_step (s : system) (e : sys_event) : system :=
  match e with
  | Input now ev =>
      let v := Webview.step (view s) (now, ev) in
      System v (pick_up (length (Webview.posted (view s))) v (inflight s))
  | Idle now =>
      let v := Webview.tick now (view s) in
      System v (pick_up (length (Webview.posted (view s))) v (inflight s))
  | Completes k res durationMs =>
      if bool_decide (k ∈ inflight s)
      then System
             (Webview.onMessage (ExtensionHost.reply res durationMs)
                (view s))
             (filter (fun n => n ≠ k) (inflight s))
      else s
  end.

Definition sys_run (s : system) (es : list sys_event) : system :=
  fold_left sys_step es s.

(** A call is stale when a newer request has been posted since. *)
Definition stale (s : system) (k : nat) : Prop :=
  k ∈ inflight s ∧ (S k < length (Webview.posted (view s)))%nat.

End Panel.

(* ===================================================================== *)
(** ** Scenarios used in the examples *)
(* ===================================================================== *)

(** The state of the content script after a drag from (10, 20) to
    (13, 25): a selection of 3 by 5 display pixels. *)
Definition drag_3_by_5 : ContentScript.state :=
  ContentScript.onMouseMove 13 25
    (ContentScript.onMouseDown 0 10 20
       (ContentScript.createOverlay
          (ContentScript.State false None 0 0 false))).

(** A panel showing an image drawn at the given place, nothing selected. *)
Definition panel_with_image (i : Webview.draw_info) : Webview.state :=
  Webview.State true (Webview.Selection false 0 0 0 0) (Some i)
    160 2 None (Webview.Display [] Webview.ConfDash Webview.DurDash true false)
    [].

(** A successful answer of the service with the given text. *)
Definition answer (text : string) : OcrSpace.response :=
  OcrSpace.Response true []
    (OcrSpace.Json false OcrSpace.EMAbsent
       [OcrSpace.ParsedResult (Some (JsString.lit text)) None None]).

(** The threshold is moved to 100, the timeout fires, the threshold is
    moved to 200 and the timeout fires again: two calls are in flight. *)
Definition two_requests_in_flight : Panel.system :=
  Panel.sys_run
    (Panel.System (panel_with_image (Webview.DrawInfo 0 0 800 400)) [])
    [Panel.Input 0 (Webview.ThrInput 100); Panel.Idle 450;
     Panel.Input 500 (Webview.ThrInput 200); Panel.Idle 950].

(** The call of the second request completes first ... *)
Definition after_fresh_completion : Panel.system :=
  Panel.sys_step two_requests_in_flight (Panel.Completes 1 (answer "NEW") 30).

(** ... and the call of the first request completes after it. *)
Definition after_stale_completion : Panel.system :=
  Panel.sys_step after_fresh_completion (Panel.Completes 0 (answer "OLD") 900).

(** An array of whole pixels whose three colour channels hold one byte. *)
Definition gray_image (d : list Z) : Prop :=
  (length d mod 4 = 0)%nat
  /\ forall k, (4 * k < length d)%nat ->
       exists v, Js.is_byte v
         /\ d !! (4 * k)%nat = Some v
         /\ d !! (4 * k + 1)%nat = Some v
         /\ d !! (4 * k + 2)%nat = Some v.

(* ===================================================================== *)
(** ** Editor panel: the reset button and the vocabulary of the scheduler *)
(* ===================================================================== *)

Module WebviewMore.
Import Webview Protocol.

(** The click listener of the reset button. *)
Definition onReset (st : state) : state :=
  if negb (hasImage st) then st
  else
    let d := ui st in
    set_ui (Display [] ConfDash DurDash (btnCopy_disabled d) (busy d))
      (set_sel (Selection (isDragging (sel st)) 0 0 0 0) st).

(** [setBusy(true)] disables the reset button as well: a click on it
    reaches the listener only while the panel is not busy. *)
Definition clickReset (st : state) : state :=
  if busy (ui st) then st else onReset st.

(** The same drag seen from its other end. *)
Definition swap_ends (st : state) : state :=
  let s := sel st in
  set_sel (Selection (isDragging s) (endX s) (endY s) (startX s) (startY s)) st.




(** A request whose threshold lies in [0, 255] and whose scale lies in
    [1, 4], in the message and in the image it carries. *)
Definition in_slider_range (m : run_ocr) : Prop :=
  (0 <=? threshold m)%float = true /\ (threshold m <=? 255)%float = true
  /\ (1 <=? scale m)%float = true /\ (scale m <=? 4)%float = true
  /\ crop_threshold (dataUrl m) = threshold m
  /\ crop_scale (dataUrl m) = scale m.

(** Threshold inputs, each at least 450 ms after the one before. *)
Fixpoint spaced (last : Z) (evs : list (Z * float)) : Prop :=
  match evs with
  | [] => True
  | (now, _) :: evs' => last + 450 <= now /\ spaced now evs'
  end.

Definition thr_inputs (evs : list (Z * float)) : list (Z * event) :=
  map (fun tv => (fst tv, ThrInput (snd tv))) evs.

(** The threshold [getThresholdVal] returns when the slider holds v. *)
Definition clamp_threshold (v : float) : float :=
  if Js.isFinite v then Js.Math_max 0 (Js.Math_min 255 v) else 160%float.

(** The scale [getScaleVal] returns when the slider holds v. *)
Definition clamp_scale (v : float) : float :=
  if Js.isFinite v then Js.Math_max 1 (Js.Math_min 4 v) else 2%float.

(** Mouse moves and mouse-ups only. *)
Definition move_or_up (e : event) : Prop :=
  match e with
  | MouseMove _ _ | MouseUp _ _ => True
  | _ => False
  end.

End WebviewMore.

(* ===================================================================== *)
(** ** Browser extension: the content script and its listeners *)
(* ===================================================================== *)

Module ContentScriptLoop.
Import ContentScript.

(** The START_CROP message is always listened to; the mouse and key
    listeners are attached by [createOverlay] and detached by
    [removeOverlay], so they run only while the overlay exists. *)
Inductive event :=
| StartCrop
| MouseDown (button : Z) (clientX clientY : float)
| MouseMove (clientX clientY : float)
| MouseUp (devicePixelRatio : float)
| KeyDown (is_escape : bool).

Definition dispatch (e : event) (st : state) : state * list crop_done :=
  match e with
  | StartCrop => (createOverlay st, [])
  | MouseDown button clientX clientY =>
      if overlay st then (onMouseDown button clientX clientY st, [])
      else (st, [])
  | MouseMove clientX clientY =>
      if overlay st then (onMouseMove clientX clientY st, []) else (st, [])
  | MouseUp devicePixelRatio =>
      if overlay st then onMouseUp devicePixelRatio st else (st, [])
  | KeyDown is_escape =>
      if overlay st then (onKeyDown is_escape st, []) else (st, [])
  end.

(** The state after a sequence of events and the messages sent, in order. *)
Fixpoint run (evs : list event) (st : state) : state * list crop_done :=
  match evs with
  | [] => (st, [])
  | e :: evs' =>
      let r1 := dispatch e st in
      let r2 := run evs' (fst r1) in
      (fst r2, snd r1 ++ snd r2)
  end.

Definition is_start (e : event) : bool :=
  match e with StartCrop => true | _ => false end.

Definition starts (evs : list event) : nat :=
  length (List.filter is_start evs).

Definition overlay_count (st : state) : nat := if overlay st then 1 else 0.

(** A message that is fit for cropping: width and height of at least 2
    and a device pixel ratio that is neither 0 nor NaN. *)
Definition well_formed (m : crop_done) : Prop :=
  (2 <=? m_w m)%float = true /\ (2 <=? m_h m)%float = true
  /\ Js.truthy (m_dpr m) = true
  /\ is_nan (m_x m) = false /\ is_nan (m_y m) = false.

End ContentScriptLoop.

(* ===================================================================== *)
(** ** Page component: the state of a recognition run *)
(* ===================================================================== *)

Module PageSession.
Import PageComponent.

(** The React state read by [runOcr] and by the button, and the number of
    [Tesseract.recognize] calls that have not settled yet. *)
Record state := State {
  src : bool;                      (* an image source is loaded *)
  processing : bool;
  ocring : bool;
  result : option OcrResult;
  error : option jsstring;
  outstanding : nat
}.

Inductive event :=
| FileChosen                       (* onFileChange / handleDrop with a file *)
| SrcLoaded                        (* reader.onload *)
| DrawStarted                      (* drawToCanvas, image being loaded *)
| DrawLoaded                       (* img.onload, pixels processed *)
| DrawFailed                       (* img.onerror *)
| DrawUnsupported                  (* img.onload without a 2d context *)
| DrawThrew (message : option jsstring)
| ClickRun (processedDataUrl : bool)
| Resolved (data : option tess_data) (durationMs : Z)
| Rejected (message : option jsstring).

(** [disabled={!src || processing || ocring}] *)
Definition button_disabled (st : state) : bool :=
  negb (src st) || processing st || ocring st.

(** The first part of [runOcr], up to the call of the recognizer. *)
Definition runOcr_start (processedDataUrl : bool) (st : state) : state :=
  if negb processedDataUrl
  then State (src st) (processing st) (ocring st) (result st)
         (Some (JsString.lit "No processed image available")) (outstanding st)
  else State (src st) (processing st) true None None (S (outstanding st)).

(** The rest of [runOcr]: the try, catch and finally blocks. *)
Definition runOcr_resolved (data : option tess_data) (durationMs : Z)
    (st : state) : state :=
  State (src st) (processing st) false
    (Some (runOcr_result data durationMs)) (error st)
    (Nat.pred (outstanding st)).

Definition runOcr_rejected (message : option jsstring) (st : state) : state :=
  State (src st) (processing st) false (result st)
    (Some (JsString.or_else message (JsString.lit "OCR failed")))
    (Nat.pred (outstanding st)).

(** A disabled button receives no click, and a call settles only if it is
    outstanding. *)
Definition dispatch (e : event) (st : state) : state :=
  match e with
  | FileChosen =>
      State (src st) (processing st) (ocring st) None None (outstanding st)
  | SrcLoaded =>
      State true (processing st) (ocring st) (result st) (error st)
        (outstanding st)
  | DrawStarted =>
      if src st
      then State (src st) true (ocring st) (result st) None (outstanding st)
      else st
  | DrawLoaded =>
      State (src st) false (ocring st) (result st) (error st) (outstanding st)
  | DrawFailed =>
      State (src st) false (ocring st) (result st)
        (Some (JsString.lit "Failed to load image")) (outstanding st)
  | DrawUnsupported =>
      State (src st) false (ocring st) (result st)
        (Some (JsString.lit "Canvas not supported")) (outstanding st)
  | DrawThrew message =>
      State (src st) false (ocring st) (result st)
        (Some (JsString.or_else message
                 (JsString.lit "Failed to preprocess image")))
        (outstanding st)
  | ClickRun processedDataUrl =>
      if button_disabled st then st else runOcr_start processedDataUrl st
  | Resolved data durationMs =>
      match outstanding st with
      | O => st
      | S _ => runOcr_resolved data durationMs st
      end
  | Rejected message =>
      match outstanding st with
      | O => st
      | S _ => runOcr_rejected message st
      end
  end.

Definition run (st : state) (evs : list event) : state :=
  fold_left (fun s e => dispatch e s) evs st.

(** The lock [ocring] is held exactly while a call is outstanding. *)
Definition lock_matches (st : state) : Prop :=
  outstanding st = if ocring st then 1%nat else 0%nat.

(** The component as it is mounted. *)
Definition initial : state := State false false false None None 0.

End PageSession.

(* ===================================================================== *)
(** ** Browser extension: the state of the popup *)
(* ===================================================================== *)

Module PopupSession.
Import OcrSpace.

Inductive conf_label :=
| ConfDash                        (* "Confidence: —" *)
| ConfNA                          (* "Confidence: n/a" *)
| ConfPercent (c : float).        (* `Confidence: ${c}%` *)

Inductive time_label :=
| TimeDash                        (* "Time: —" *)
| TimeMs (elapsed : Z).           (* `Time: ${elapsed} ms` *)

Record state := State {
  canvas_width : float;
  canvas_height : float;
  imgDataUrl : option Popup.source_rect;   (* the crop the data URL encodes *)
  ocrText : jsstring;
  elConfidence : conf_label;
  elDuration : time_label;
  btnOCR_disabled : bool;
  btnCopy_disabled : bool
}.

Definition resetState (st : state) : state :=
  State 0 0 None [] ConfDash TimeDash true true.

(** The CROP_DONE listener, once the screenshot has been loaded. *)
Definition onCropLoaded (m : ContentScript.crop_done) (st : state) : state :=
  let r := Popup.onCropDone m in
  State (Popup.sw r) (Popup.sh r) (Some r) (ocrText st) (elConfidence st)
    (elDuration st) false (btnCopy_disabled st).

(** The click listener of the OCR button, up to the request. *)
Definition onOcrClick (st : state) : state :=
  match imgDataUrl st with
  | None => st
  | Some _ =>
      State (canvas_width st) (canvas_height st) (imgDataUrl st) (ocrText st)
        (elConfidence st) (elDuration st) true (btnCopy_disabled st)
  end.

(** How the request ends: [fetch] or [res.json()] rejects with a message,
    or the body is parsed. *)
Inductive outcome :=
| Failed (message : jsstring)
| Answered (j : option json).

(** The rest of the listener: the try, catch and finally blocks. *)
Definition onOcrSettled (o : outcome) (elapsed : Z) (st : state) : state :=
  let shown :=
    match o with
    | Failed message => Popup.ShownError (Popup.error_text message)
    | Answered j => Popup.onClickOcr j
    end in
  match shown with
  | Popup.ShownText text conf =>
      State (canvas_width st) (canvas_height st) (imgDataUrl st) text
        (match conf with Some c => ConfPercent c | None => ConfNA end)
        (TimeMs elapsed) false
        (match text with [] => true | _ => false end)
  | Popup.ShownError t =>
      State (canvas_width st) (canvas_height st) (imgDataUrl st) t
        ConfDash TimeDash false (btnCopy_disabled st)
  end.

Inductive event :=
| Clear                           (* btnClear, and btnStart before it asks *)
| CropLoaded (m : ContentScript.crop_done)
| OcrClick
| OcrSettled (o : outcome) (elapsed : Z).

(** A disabled button receives no click. *)
Definition dispatch (e : event) (st : state) : state :=
  match e with
  | Clear => resetState st
  | CropLoaded m => onCropLoaded m st
  | OcrClick => if btnOCR_disabled st then st else onOcrClick st
  | OcrSettled o elapsed => onOcrSettled o elapsed st
  end.

Definition run (st : state) (evs : list event) : state :=
  fold_left (fun s e => dispatch e s) evs st.

(** The Copy button is enabled only over a text that is not empty. *)
Definition copy_has_text (st : state) : Prop :=
  btnCopy_disabled st = false -> ocrText st <> [].

End PopupSession.

(* ===================================================================== *)
(** * Properties *)
(* ===================================================================== *)

(** ** The pixel loop *)

Section PixelLoopFacts.

Variable body : nat -> list Z -> list Z.

(** A loop body keeps the length of the array, writes only inside the
    pixel at i and reads only inside it. *)
Hypothesis body_length : forall i d, length (body i d) = length d.
Hypothesis body_frame : forall i d j,
  (j < i \/ i + 4 <= j)%nat -> body i d !! j = d !! j.
Hypothesis body_local : forall i d d' j,
  (forall m, (i <= m < i + 4)%nat -> d !! m = d' !! m) ->
  (i <= j < i + 4)%nat -> body i d !! j = body i d' !! j.

Lemma for_px_length fuel i d : length (for_px body fuel i d) = length d.
Proof.
  revert i d. induction fuel as [|fuel IH]; intros i d; cbn [for_px]; [done|].
  destruct (i <? length d)%nat; [|done].
  rewrite IH. apply body_length.
Qed.

Lemma body_outside i d j : (length d <= j)%nat -> body i d !! j = None.
Proof.
  intros Hj. apply lookup_ge_None_2. rewrite body_length. exact Hj.
Qed.

(** Each byte of the result is the one the body writes when run on the
    original array at the pixel the byte belongs to. *)
Lemma for_px_lookup fuel i d j :
  (length d - i <= fuel)%nat ->
  for_px body fuel i d !! j =
    if decide (j < i)%nat then d !! j
    else body (i + 4 * ((j - i) / 4)) d !! j.
Proof.
  revert i d. induction fuel as [|fuel IH]; intros i d Hfuel; cbn [for_px].
  - destruct (decide (j < i)%nat) as [|Hge]; [done|].
    rewrite body_outside by lia. apply lookup_ge_None_2. lia.
  - destruct (i <? length d)%nat eqn:Hi.
    + apply Nat.ltb_lt in Hi.
      rewrite IH by (rewrite body_length; lia).
      destruct (decide (j < i)%nat) as [Hlt|Hge].
      * rewrite decide_True by lia. apply body_frame. lia.
      * destruct (decide (j < i + 4)%nat) as [Hin|Hout].
        -- replace (i + 4 * ((j - i) / 4))%nat with i; [done|].
           assert ((j - i) / 4 = 0)%nat by (apply Nat.div_small; lia). lia.
        -- assert (Hk : (i + 4 + 4 * ((j - (i + 4)) / 4)
                        = i + 4 * ((j - i) / 4))%nat).
           { replace (j - i)%nat with (1 * 4 + (j - (i + 4)))%nat by lia.
             rewrite Nat.div_add_l by lia. lia. }
           rewrite Hk. set (k := (i + 4 * ((j - i) / 4))%nat) in *.
           assert (k <= j < k + 4)%nat.
           { pose proof (Nat.div_mod_eq (j - (i + 4)) 4) as Hdm.
             pose proof (Nat.mod_upper_bound (j - (i + 4)) 4). lia. }
           apply body_local; [|lia].
           intros m Hm. apply body_frame. lia.
    + apply Nat.ltb_ge in Hi.
      destruct (decide (j < i)%nat) as [|Hge]; [done|].
      rewrite body_outside by lia. apply lookup_ge_None_2. lia.
Qed.

Lemma for_each_px_lookup d j :
  for_each_px body d !! j = body (4 * (j / 4)) d !! j.
Proof.
  unfold for_each_px. rewrite for_px_lookup by lia.
  rewrite decide_False by lia. by rewrite Nat.sub_0_r.
Qed.

(** The loop ends by its own test: fuel beyond the length of the array
    is never used. *)
Lemma for_px_enough fuel d :
  (length d <= fuel)%nat -> for_px body fuel 0 d = for_each_px body d.
Proof.
  intros Hfuel. apply list_eq. intros j.
  unfold for_each_px. rewrite !for_px_lookup by lia. done.
Qed.

Lemma for_each_px_length d : length (for_each_px body d) = length d.
Proof. apply for_px_length. Qed.

End PixelLoopFacts.

(** ** The loop bodies *)

Lemma clamp8_byte z : Js.is_byte (Js.clamp8 z).
Proof. unfold Js.is_byte, Js.clamp8. lia. Qed.

Lemma clamp8_id z : Js.is_byte z -> Js.clamp8 z = z.
Proof. unfold Js.is_byte, Js.clamp8. lia. Qed.

Lemma ToUint8Clamp_byte x : Js.is_byte (Js.ToUint8Clamp x).
Proof.
  unfold Js.ToUint8Clamp.
  destruct (Prim2SF x) as [[]|[]| |s m e];
    try apply clamp8_byte; unfold Js.is_byte; lia.
Qed.

#[local] Instance in_rgb_dec i j : Decision (in_rgb i j).
Proof. unfold in_rgb. apply _. Defined.

Ltac lookup_cases :=
  rewrite ?list_lookup_insert, ?length_insert;
  repeat case_decide; unfold in_rgb in *;
  try done; try lia; try (exfalso; lia).

Lemma set_rgb_lookup i v (d : list Z) j :
  set_rgb i v d !! j =
    if decide (in_rgb i j /\ (j < length d)%nat) then Some v else d !! j.
Proof. unfold set_rgb. lookup_cases. Qed.

Lemma set_rgb_length i v (d : list Z) : length (set_rgb i v d) = length d.
Proof. unfold set_rgb. by rewrite !length_insert. Qed.

Lemma lookup_agree_lt (d d' : list Z) j :
  d !! j = d' !! j -> (j < length d)%nat <-> (j < length d')%nat.
Proof. intros H. rewrite <- !lookup_lt_is_Some, H. done. Qed.

Module PageFacts.
Import PageComponent.

Lemma invert_at_lookup k (d : list Z) j :
  invert_at k d !! j =
    if decide (j = k) then (fun v => Js.clamp8 (255 - v)) <$> d !! j
    else d !! j.
Proof.
  unfold invert_at. destruct (d !! k) as [v|] eqn:Hk.
  - rewrite list_lookup_insert. apply lookup_lt_Some in Hk as Hlt.
    repeat case_decide; subst; try rewrite Hk; try done; lia.
  - case_decide; subst; [by rewrite Hk|done].
Qed.

Lemma invert_at_length k (d : list Z) : length (invert_at k d) = length d.
Proof. unfold invert_at. destruct (d !! k); by rewrite ?length_insert. Qed.

Lemma invert_body_lookup i (d : list Z) j :
  invert_body i d !! j =
    if decide (in_rgb i j) then (fun v => Js.clamp8 (255 - v)) <$> d !! j
    else d !! j.
Proof.
  unfold invert_body. rewrite !invert_at_lookup.
  repeat case_decide; unfold in_rgb in *; try done; lia.
Qed.

Lemma grayscale_body_lookup i (d : list Z) j :
  grayscale_body i d !! j =
    if decide (in_rgb i j /\ (j < length d)%nat)
    then Some (gray_of (d !! i) (d !! (i + 1)%nat) (d !! (i + 2)%nat))
    else d !! j.
Proof. unfold grayscale_body. apply set_rgb_lookup. Qed.

Lemma threshold_body_lookup t i (d : list Z) j :
  threshold_body t i d !! j =
    if decide (in_rgb i j /\ (j < length d)%nat)
    then Some (bin_of t (d !! i))
    else d !! j.
Proof. unfold threshold_body. apply set_rgb_lookup. Qed.

(** The three bodies meet the conditions of the loop lemmas. *)
Lemma grayscale_body_length i d : length (grayscale_body i d) = length d.
Proof. apply set_rgb_length. Qed.

Lemma grayscale_body_frame i d j :
  (j < i \/ i + 4 <= j)%nat -> grayscale_body i d !! j = d !! j.
Proof.
  intros H. rewrite grayscale_body_lookup.
  case_decide; unfold in_rgb in *; [lia|done].
Qed.

Lemma grayscale_body_local i d d' j :
  (forall m, (i <= m < i + 4)%nat -> d !! m = d' !! m) ->
  (i <= j < i + 4)%nat -> grayscale_body i d !! j = grayscale_body i d' !! j.
Proof.
  intros H Hj. rewrite !grayscale_body_lookup.
  rewrite <- !H by lia.
  pose proof (lookup_agree_lt d d' j (H j Hj)).
  repeat case_decide; try done; tauto.
Qed.

Lemma threshold_body_length t i d : length (threshold_body t i d) = length d.
Proof. apply set_rgb_length. Qed.

Lemma threshold_body_frame t i d j :
  (j < i \/ i + 4 <= j)%nat -> threshold_body t i d !! j = d !! j.
Proof.
  intros H. rewrite threshold_body_lookup.
  case_decide; unfold in_rgb in *; [lia|done].
Qed.

Lemma threshold_body_local t i d d' j :
  (forall m, (i <= m < i + 4)%nat -> d !! m = d' !! m) ->
  (i <= j < i + 4)%nat ->
  threshold_body t i d !! j = threshold_body t i d' !! j.
Proof.
  intros H Hj. rewrite !threshold_body_lookup.
  rewrite <- !H by lia.
  pose proof (lookup_agree_lt d d' j (H j Hj)).
  repeat case_decide; try done; tauto.
Qed.

Lemma invert_body_length i d : length (invert_body i d) = length d.
Proof. unfold invert_body. by rewrite !invert_at_length. Qed.

Lemma invert_body_frame i d j :
  (j < i \/ i + 4 <= j)%nat -> invert_body i d !! j = d !! j.
Proof.
  intros H. rewrite invert_body_lookup.
  case_decide; unfold in_rgb in *; [lia|done].
Qed.

Lemma invert_body_local i d d' j :
  (forall m, (i <= m < i + 4)%nat -> d !! m = d' !! m) ->
  (i <= j < i + 4)%nat -> invert_body i d !! j = invert_body i d' !! j.
Proof.
  intros H Hj. rewrite !invert_body_lookup, (H j Hj). done.
Qed.

(** The pixel a byte belongs to starts at [4 * (j / 4)]. *)
Lemma in_rgb_pixel j : in_rgb (4 * (j / 4)) j <-> (j mod 4 <> 3)%nat.
Proof.
  unfold in_rgb. pose proof (Nat.div_mod_eq j 4).
  pose proof (Nat.mod_upper_bound j 4). lia.
Qed.

Lemma grayscale_stage_lookup d j :
  grayscale_stage d !! j =
    if decide ((j mod 4 <> 3)%nat /\ (j < length d)%nat)
    then Some (gray_of (d !! (4 * (j / 4))%nat)
                       (d !! (4 * (j / 4) + 1)%nat)
                       (d !! (4 * (j / 4) + 2)%nat))
    else d !! j.
Proof.
  unfold grayscale_stage.
  rewrite (for_each_px_lookup _ grayscale_body_length grayscale_body_frame
             grayscale_body_local).
  rewrite grayscale_body_lookup.
  pose proof (in_rgb_pixel j). repeat case_decide; try done; tauto.
Qed.

Lemma threshold_stage_lookup t d j :
  threshold_stage t d !! j =
    if decide ((j mod 4 <> 3)%nat /\ (j < length d)%nat)
    then Some (bin_of t (d !! (4 * (j / 4))%nat))
    else d !! j.
Proof.
  unfold threshold_stage.
  rewrite (for_each_px_lookup _ (threshold_body_length t)
             (threshold_body_frame t) (threshold_body_local t)).
  rewrite threshold_body_lookup.
  pose proof (in_rgb_pixel j). repeat case_decide; try done; tauto.
Qed.

Lemma invert_stage_lookup d j :
  invert_stage d !! j =
    if decide (j mod 4 <> 3)%nat
    then (fun v => Js.clamp8 (255 - v)) <$> d !! j
    else d !! j.
Proof.
  unfold invert_stage.
  rewrite (for_each_px_lookup _ invert_body_length invert_body_frame
             invert_body_local).
  rewrite invert_body_lookup.
  pose proof (in_rgb_pixel j). repeat case_decide; try done; tauto.
Qed.

End PageFacts.

Module WebviewPixelFacts.
Import Webview.

Lemma binarize_body_lookup t i (d : list Z) j :
  binarize_body t i d !! j =
    if decide ((j < length d)%nat /\ in_rgb i j) then Some (bin_at t i d)
    else if decide ((j < length d)%nat /\ j = (i + 3)%nat) then Some 255
    else d !! j.
Proof. unfold binarize_body, bin_at. lookup_cases. Qed.

Lemma binarize_body_length t i d : length (binarize_body t i d) = length d.
Proof. unfold binarize_body. by rewrite !length_insert. Qed.

Lemma binarize_body_frame t i d j :
  (j < i \/ i + 4 <= j)%nat -> binarize_body t i d !! j = d !! j.
Proof.
  intros H. rewrite binarize_body_lookup.
  repeat case_decide; unfold in_rgb in *; try done; lia.
Qed.

Lemma binarize_body_local t i d d' j :
  (forall m, (i <= m < i + 4)%nat -> d !! m = d' !! m) ->
  (i <= j < i + 4)%nat ->
  binarize_body t i d !! j = binarize_body t i d' !! j.
Proof.
  intros H Hj. rewrite !binarize_body_lookup. unfold bin_at.
  rewrite <- !H by lia.
  pose proof (lookup_agree_lt d d' j (H j Hj)).
  repeat case_decide; try done; tauto.
Qed.

Lemma binarize_lookup t d j :
  binarize t d !! j = binarize_body t (4 * (j / 4)) d !! j.
Proof.
  unfold binarize.
  apply (for_each_px_lookup _ (binarize_body_length t)
           (binarize_body_frame t) (binarize_body_local t)).
Qed.

End WebviewPixelFacts.

(** ** Bytes stay bytes through the page component's pipeline *)

Module PagePipelineFacts.
Import PageComponent PageFacts.

Lemma bin_of_byte t v : Js.is_byte (bin_of t v).
Proof.
  unfold bin_of, Js.is_byte. destruct v as [v|]; [|lia].
  destruct (t <? v); lia.
Qed.

Lemma grayscale_stage_bytes d :
  Forall Js.is_byte d -> Forall Js.is_byte (grayscale_stage d).
Proof.
  rewrite !Forall_lookup. intros H j v.
  rewrite grayscale_stage_lookup. case_decide.
  - intros [= <-]. apply ToUint8Clamp_byte.
  - apply H.
Qed.

Lemma threshold_stage_bytes t d :
  Forall Js.is_byte d -> Forall Js.is_byte (threshold_stage t d).
Proof.
  rewrite !Forall_lookup. intros H j v.
  rewrite threshold_stage_lookup. case_decide.
  - intros [= <-]. apply bin_of_byte.
  - apply H.
Qed.

Lemma invert_stage_bytes d :
  Forall Js.is_byte d -> Forall Js.is_byte (invert_stage d).
Proof.
  rewrite !Forall_lookup. intros H j v.
  rewrite invert_stage_lookup. case_decide; [|apply H].
  destruct (d !! j); simpl; [|done]. intros [= <-]. apply clamp8_byte.
Qed.

Lemma preprocess_bytes c d :
  Forall Js.is_byte d -> Forall Js.is_byte (preprocess c d).
Proof.
  intros H. unfold preprocess.
  destruct (grayscale c || thresholdEnabled c), (thresholdEnabled c),
    (invert c);
    auto using grayscale_stage_bytes, threshold_stage_bytes,
      invert_stage_bytes.
Qed.

Lemma invert_byte_twice v :
  Js.is_byte v -> Js.clamp8 (255 - Js.clamp8 (255 - v)) = v.
Proof. unfold Js.is_byte, Js.clamp8. lia. Qed.

Lemma invert_stage_involutive d :
  Forall Js.is_byte d -> invert_stage (invert_stage d) = d.
Proof.
  intros H. apply list_eq. intros j.
  rewrite !invert_stage_lookup. case_decide; [|done].
  destruct (d !! j) as [v|] eqn:Hj; simpl; [|done].
  f_equal. apply invert_byte_twice.
  rewrite Forall_lookup in H. by apply (H j).
Qed.

Lemma preprocess_invert_last c d :
  preprocess (with_invert true c) d
  = invert_stage (preprocess (with_invert false c) d).
Proof. reflexivity. Qed.

(** No stage of the page component touches the alpha channel. *)
Lemma preprocess_alpha c d j :
  (j mod 4 = 3)%nat -> preprocess c d !! j = d !! j.
Proof.
  intros Hj. unfold preprocess.
  destruct (grayscale c || thresholdEnabled c), (thresholdEnabled c),
    (invert c);
    rewrite ?invert_stage_lookup, ?threshold_stage_lookup,
      ?grayscale_stage_lookup;
    repeat case_decide; try done; lia.
Qed.

End PagePipelineFacts.

(** ** The claims on the preprocessing pipeline *)

Section PixelClaims.
Import PageComponent PageFacts PagePipelineFacts WebviewPixelFacts.

(** C1 (as amended).  Take the pixel k of an image, with channels
    r, g, b, a.  In the page component, when thresholdEnabled is set, the
    threshold stage compares the stored luminance
    L = round(0.299 r + 0.587 g + 0.114 b) strictly: the three colour
    channels become 255 when L > threshold and 0 otherwise (L = threshold
    included), and the invert stage, when enabled, then maps them to
    255 minus that.  In the editor panel the loop always thresholds and
    compares the unrounded luminance y with [y >= threshold]: the three
    channels become 255 when threshold <= y, so a pixel whose luminance
    equals the threshold exactly becomes white there. *)
Theorem threshold_comparison_by_variant
    (c : config) (t : float) (data : list Z) (k : nat) (r g b a : Z) :
  thresholdEnabled c = true ->
  data !! (4 * k)%nat = Some r ->
  data !! (4 * k + 1)%nat = Some g ->
  data !! (4 * k + 2)%nat = Some b ->
  data !! (4 * k + 3)%nat = Some a ->
  let L := gray_of (Some r) (Some g) (Some b) in
  let bin := if threshold c <? L then 255 else 0 in
  let y := luma (Js.Number_of_int r) (Js.Number_of_int g)
             (Js.Number_of_int b) in
  let v := if (t <=? y)%float then 255 else 0 in
  forall ch, (ch < 3)%nat ->
    preprocess c data !! (4 * k + ch)%nat
      = Some (if invert c then 255 - bin else bin)
    /\ Webview.binarize t data !! (4 * k + ch)%nat = Some v.
Proof.
  intros Hthr Hr Hg Hb Ha L bin y v ch Hch.
  assert (Hlen : (4 * k + 3 < length data)%nat)
    by (eapply lookup_lt_Some; eauto).
  assert (Hdiv : ((4 * k + ch) / 4 = k)%nat).
  { rewrite Nat.mul_comm, Nat.div_add_l by lia.
    rewrite Nat.div_small by lia. lia. }
  assert (Hmod : ((4 * k + ch) mod 4 <> 3)%nat).
  { rewrite Nat.add_comm, Nat.mul_comm, Nat.Div0.mod_add.
    rewrite Nat.mod_small by lia. lia. }
  assert (Hk0 : ((4 * k) / 4 = k)%nat).
  { rewrite Nat.mul_comm. apply Nat.div_mul. lia. }
  assert (Hk0m : ((4 * k) mod 4 <> 3)%nat).
  { rewrite Nat.mul_comm, Nat.Div0.mod_mul. lia. }
  assert (Hgray0 : grayscale_stage data !! (4 * k)%nat = Some L).
  { rewrite grayscale_stage_lookup, Hk0, Hr, Hg, Hb.
    rewrite decide_True by (split; [done|lia]). done. }
  assert (Hbin : threshold_stage (threshold c) (grayscale_stage data)
                   !! (4 * k + ch)%nat = Some bin).
  { rewrite threshold_stage_lookup, Hdiv, Hgray0.
    rewrite decide_True; [done|].
    split; [done|]. unfold grayscale_stage.
    rewrite for_each_px_length by apply grayscale_body_length. lia. }
  split.
  - unfold preprocess. rewrite Hthr, orb_true_r.
    destruct (invert c).
    + rewrite invert_stage_lookup, decide_True by done.
      rewrite Hbin. simpl. f_equal. subst bin.
      destruct (threshold c <? L); reflexivity.
    + exact Hbin.
  - rewrite binarize_lookup, Hdiv, binarize_body_lookup.
    rewrite decide_True; [|split; [lia|unfold in_rgb; lia]].
    unfold Webview.bin_at. rewrite Hr, Hg, Hb. reflexivity.
Qed.

(** C7.  The page component's pipeline with invert enabled is the
    pipeline without it followed by the invert stage (invert is the last
    stage); the invert stage maps each colour channel v to 255 - v and
    leaves alpha as it is; and applying the invert stage once more to the
    output restores the output of the pipeline with invert disabled,
    byte for byte. *)
Theorem invert_twice_restores (c : config) (data : list Z) :
  Forall Js.is_byte data ->
  preprocess (with_invert true c) data
    = invert_stage (preprocess (with_invert false c) data)
  /\ (forall d j v, Forall Js.is_byte d -> d !! j = Some v ->
        invert_stage d !! j
          = Some (if decide (j mod 4 = 3)%nat then v else 255 - v))
  /\ invert_stage (preprocess (with_invert true c) data)
     = preprocess (with_invert false c) data.
Proof.
  intros Hbytes. split; [apply preprocess_invert_last|]. split.
  - intros d j v Hd Hj. rewrite invert_stage_lookup, Hj.
    rewrite Forall_lookup in Hd. specialize (Hd j v Hj).
    repeat case_decide; try done; try lia. simpl. f_equal.
    apply clamp8_id. unfold Js.is_byte in *. lia.
  - rewrite preprocess_invert_last. apply invert_stage_involutive.
    by apply preprocess_bytes.
Qed.

(** C8 (as amended).  In the editor panel the threshold loop sets the
    alpha byte of every pixel to 255.  In the page component no stage
    writes the alpha byte: with or without thresholding, the alpha of
    every pixel of the output is the alpha of the input. *)
Theorem alpha_by_variant
    (c : config) (t : float) (data : list Z) (j : nat) (a : Z) :
  (j mod 4 = 3)%nat ->
  data !! j = Some a ->
  Webview.binarize t data !! j = Some 255
  /\ preprocess c data !! j = Some a.
Proof.
  intros Hj Ha. split.
  - rewrite binarize_lookup, binarize_body_lookup.
    apply lookup_lt_Some in Ha.
    pose proof (Nat.div_mod_eq j 4).
    rewrite decide_False by (unfold in_rgb; lia).
    rewrite decide_True by lia. done.
  - by rewrite preprocess_alpha.
Qed.

End PixelClaims.

Import PageComponent.

Lemma threshold_comparison_by_variant_witness :
  let c := Config true false true 160 2 in
  let data := [161; 161; 161; 255] in
  preprocess c data !! 0%nat = Some 255
  /\ Webview.binarize 160 data !! 0%nat = Some 255.
Proof.
  apply (threshold_comparison_by_variant (Config true false true 160 2)
           160%float [161; 161; 161; 255] 0 161 161 161 255);
    try reflexivity. lia.
Defined.

Lemma invert_twice_restores_witness :
  let c := Config true false true 160 2 in
  let data := [10; 200; 30; 128] in
  invert_stage (preprocess (with_invert true c) data)
  = preprocess (with_invert false c) data.
Proof.
  apply (invert_twice_restores (Config true false true 160 2)
           [10; 200; 30; 128]).
  repeat constructor; unfold Js.is_byte; lia.
Defined.

Lemma alpha_by_variant_witness :
  let c := Config true false true 160 2 in
  let data := [10; 200; 30; 128] in
  Webview.binarize 160 data !! 3%nat = Some 255
  /\ preprocess c data !! 3%nat = Some 128.
Proof.
  apply (alpha_by_variant (Config true false true 160 2) 160%float
           [10; 200; 30; 128] 3 128); reflexivity.
Defined.

(** The scenarios of a uniform mid-gray source: with threshold 128 the
    output is black (128 is not above 128), with threshold 127 it is
    white. *)
Example mid_gray_at_the_threshold :
  preprocess (Config true false true 128 2) [128; 128; 128; 255]
  = [0; 0; 0; 255]
  /\ preprocess (Config true false true 127 2) [128; 128; 128; 255]
     = [255; 255; 255; 255].
Proof. vm_compute. split; reflexivity. Qed.

(** C1, counterexample.  In the editor panel a black pixel at threshold 0,
    and a pixel (160,160,160) at the default threshold 160, have a
    luminance equal to the threshold and come out white. *)
Lemma panel_threshold_is_not_strict :
  gray_of (Some 0) (Some 0) (Some 0) = 0
  /\ Webview.binarize 0 [0; 0; 0; 255] = [255; 255; 255; 255]
  /\ gray_of (Some 160) (Some 160) (Some 160) = 160
  /\ Webview.binarize 160 [160; 160; 160; 255] = [255; 255; 255; 255].
Proof. vm_compute. repeat split. Qed.

(** C8, counterexample.  The page component thresholds a half-transparent
    pixel and leaves its alpha at 128. *)
Lemma page_threshold_keeps_alpha :
  preprocess (Config true false true 160 2) [200; 200; 200; 128]
  = [255; 255; 255; 128].
Proof. vm_compute. reflexivity. Qed.

(** ** Strings *)

Module StringFacts.
Import JsString.

Lemma trimStart_filter s :
  List.filter not_ws (trimStart s) = List.filter not_ws s.
Proof.
  induction s as [|c s IH]; [done|]. cbn [trimStart].
  destruct (is_ws c) eqn:Hc; [|done].
  rewrite IH. cbn [List.filter]. unfold not_ws at 2. by rewrite Hc.
Qed.

Lemma trim_filter s : List.filter not_ws (trim s) = List.filter not_ws s.
Proof.
  unfold trim, trimEnd.
  rewrite filter_rev, trimStart_filter, filter_rev, rev_involutive.
  apply trimStart_filter.
Qed.

(** With an empty replacement, replacing the runs of whitespace deletes
    every whitespace character. *)
Lemma replace_ws_from_empty b s :
  replace_ws_from b [] s = List.filter not_ws s.
Proof.
  revert b. induction s as [|c s IH]; intros b; [done|].
  cbn [replace_ws_from List.filter]. unfold not_ws at 1.
  destruct (is_ws c); cbn [negb].
  - destruct b; apply IH.
  - f_equal. apply IH.
Qed.

Lemma filter_not_ws_clean s :
  Forall (fun c => is_ws c = false) (List.filter not_ws s).
Proof.
  apply List.Forall_forall. intros c [_ Hc]%filter_In.
  unfold not_ws in Hc. by destruct (is_ws c).
Qed.

End StringFacts.

(** ** The claims on the recognition result *)

Section ResultClaims.
Import PageComponent StringFacts.

(** C10.  In the page component the text stored in the result is the
    recognised text with every whitespace character deleted, wherever it
    stands: no character of the stored text is whitespace. *)
Theorem result_text_has_no_whitespace (data : option tess_data) (d : Z) :
  r_text (runOcr_result data d)
    = List.filter JsString.not_ws (JsString.or_else (data ≫= text) [])
  /\ Forall (fun c => JsString.is_ws c = false)
       (r_text (runOcr_result data d)).
Proof.
  assert (H : r_text (runOcr_result data d)
              = List.filter JsString.not_ws (JsString.or_else (data ≫= text) [])).
  { cbn [runOcr_result r_text]. unfold result_text, JsString.replace_ws_runs.
    rewrite replace_ws_from_empty. apply trim_filter. }
  split; [exact H|]. rewrite H. apply filter_not_ws_clean.
Qed.

Lemma words_avg_mean ws : words_avg ws = arith_mean (map word_conf ws).
Proof.
  unfold words_avg, arith_mean. rewrite length_map. f_equal.
  generalize zero. induction ws as [|w ws IH]; intros acc; [done|].
  cbn [fold_left map]. apply IH.
Qed.

Lemma host_mean_arith vals : ExtensionHost.mean vals = arith_mean vals.
Proof. reflexivity. Qed.

(** C3 (as amended).  In the page component the per-word confidences
    come first: when the list of words is not empty and the mean of
    their confidences (a missing or falsy one counting as 0) is finite,
    that mean is the confidence, whatever aggregate value is reported;
    when there are no words, or the mean is not finite, the aggregate
    value is used, and 0 when there is none.  In the editor panel's
    adapter the confidence is the mean of the per-word confidences that
    are not NaN, and stays undefined when there is none; no aggregate
    value is read and nothing falls back to 0. *)
Theorem confidence_by_variant
    (data : option tess_data) (res : OcrSpace.response) :
  (forall ws, data ≫= words = Some ws -> ws <> [] ->
     Js.isFinite (arith_mean (map word_conf ws)) = true ->
     result_confidence data = arith_mean (map word_conf ws))
  /\ (forall ws, data ≫= words = Some ws -> ws <> [] ->
     Js.isFinite (arith_mean (map word_conf ws)) = false ->
     result_confidence data = overall data)
  /\ (data ≫= words = None \/ data ≫= words = Some [] ->
     result_confidence data = overall data)
  /\ (OcrSpace.ok res = true ->
      OcrSpace.IsErroredOnProcessing (OcrSpace.body res) = false ->
      exists r, ExtensionHost.callOcrSpace res = ExtensionHost.Returned r
        /\ ExtensionHost.confidence r =
           match head (OcrSpace.ParsedResults (OcrSpace.body res))
                   ≫= OcrSpace.WordConfidences with
           | Some cs =>
               match List.filter (fun v => negb (Js.Number_isNaN v)) cs with
               | [] => None
               | vals => Some (arith_mean vals)
               end
           | None => None
           end).
Proof.
  repeat split.
  - intros ws Hws Hne Hfin. unfold result_confidence. rewrite Hws.
    destruct ws as [|w ws]; [done|].
    rewrite words_avg_mean, Hfin. done.
  - intros ws Hws Hne Hfin. unfold result_confidence. rewrite Hws.
    destruct ws as [|w ws]; [done|].
    rewrite words_avg_mean, Hfin. done.
  - intros [H|H]; unfold result_confidence; rewrite H; done.
  - intros Hok Herr. unfold ExtensionHost.callOcrSpace.
    rewrite Hok, Herr. cbn [negb]. eexists. split; [reflexivity|].
    cbn [ExtensionHost.confidence]. unfold ExtensionHost.word_confidence.
    destruct (head _ ≫= OcrSpace.WordConfidences) as [[|c cs]|]; try done.
    destruct (List.filter _ (c :: cs)) as [|v vals] eqn:Hf; [done|].
    by rewrite host_mean_arith.
Qed.

End ResultClaims.

Lemma confidence_by_variant_witness :
  let data := Some (TessData None (Some 90%float)
                      (Some [Some 50%float; Some 70%float])) in
  result_confidence data = 60%float.
Proof.
  pose proof (confidence_by_variant
    (Some (TessData None (Some 90%float)
             (Some [Some 50%float; Some 70%float])))
    (OcrSpace.Response true []
       (OcrSpace.Json false OcrSpace.EMAbsent []))) as (H & _).
  apply (H [Some 50%float; Some 70%float]); [reflexivity|done|reflexivity].
Defined.

(** C3, counterexample.  The page component is given an aggregate
    confidence of 90 and one word of confidence 50: the result carries 50.
    The panel's adapter is given an empty list of word confidences: the
    confidence stays undefined instead of 0. *)
Lemma aggregate_confidence_not_used :
  result_confidence
    (Some (TessData None (Some 90%float) (Some [Some 50%float])))
  = 50%float
  /\ ExtensionHost.callOcrSpace
       (OcrSpace.Response true []
          (OcrSpace.Json false OcrSpace.EMAbsent
             [OcrSpace.ParsedResult (Some (JsString.lit "AB12"))
                (Some 90%float) (Some [])]))
     = ExtensionHost.Returned
         (ExtensionHost.OcrOk (JsString.lit "AB12") None).
Proof. vm_compute. split; reflexivity. Qed.

(** ** The claims on the adapters and on the selection *)

Section AdapterClaims.
Import OcrSpace.

(** C9 (as amended).  A response whose processing-error flag is set
    never yields a result: [callOcrSpace] throws, the host answers with
    "ocr-error", which the panel shows after "Error: ", and the popup
    shows an error after "OCR error: ".  The message is the one the
    service supplied only in part.  In the editor panel, for a response
    with a success status: an [ErrorMessage] that is a non-empty string
    is reported as it is; of an array only the first element is
    reported, and the text "Error" when that element is missing or
    empty, whatever the other elements hold; a missing or empty
    [ErrorMessage] gives "OCR processing error".  A response without a
    success status is reported as "OCR API error: " followed by the
    status, whatever its body holds.  In the popup a non-empty string is
    shown as it is; all the elements of an array are shown, joined with
    ", " (the text "Error" when that is empty); a missing or empty
    [ErrorMessage] gives "OCR failed". *)
Theorem flagged_response_fails
    (res : response) (durationMs : Z) (st : Webview.state) :
  IsErroredOnProcessing (body res) = true ->
  (exists m,
      ExtensionHost.callOcrSpace res = ExtensionHost.Thrown m
      /\ ExtensionHost.reply res durationMs
         = Protocol.OcrError (ExtensionHost.error_string m)
      /\ Webview.output_value
           (Webview.ui
              (Webview.onMessage (ExtensionHost.reply res durationMs) st))
         = JsString.lit "Error: " ++ ExtensionHost.error_string m
      /\ ExtensionHost.error_string m
         = if ok res
           then match ErrorMessage (body res) with
                | EMString (c :: s) => c :: s
                | EMString [] | EMAbsent => JsString.lit "OCR processing error"
                | EMArray ((c :: s) :: _) => c :: s
                | EMArray _ => JsString.lit "Error"
                end
           else JsString.lit "OCR API error: " ++ status_text res)
  /\ (exists t,
      Popup.onClickOcr (Some (body res))
      = Popup.ShownError (JsString.lit "OCR error: " ++ t)
      /\ t = match ErrorMessage (body res) with
             | EMString (c :: s) => c :: s
             | EMString [] | EMAbsent => JsString.lit "OCR failed"
             | EMArray l =>
                 match JsString.join (JsString.lit ", ") l with
                 | c :: s => c :: s
                 | [] => JsString.lit "Error"
                 end
             end
      /\ (forall a b l, ErrorMessage (body res) = EMArray (a :: b :: l) ->
            t = a ++ JsString.lit ", "
                  ++ JsString.join (JsString.lit ", ") (b :: l))).
Proof.
  intros Hflag. split.
  - unfold ExtensionHost.reply, ExtensionHost.callOcrSpace.
    rewrite Hflag. destruct (ok res) eqn:Hok; cbn [negb].
    + eexists. split; [reflexivity|]. split; [reflexivity|].
      split; [reflexivity|].
      destruct (ErrorMessage (body res)) as [|[|c s]|[|[|c s] l]];
        reflexivity.
    + eexists. split; [reflexivity|]. split; [reflexivity|].
      split; reflexivity.
  - unfold Popup.onClickOcr. rewrite Hflag.
    unfold Popup.error_text, Popup.thrown_message.
    eexists. split; [reflexivity|]. split.
    + destruct (ErrorMessage (body res)) as [|[|c s]|l]; reflexivity.
    + intros a b l Hm. rewrite Hm. cbn [JsString.join].
      destruct a; reflexivity.
Qed.

(** C6 (as amended).  When a selection is finalized the content script
    sends the rectangle in display pixels together with dpr
    ([window.devicePixelRatio], or 1 when that is falsy); the popup
    converts it: each of x, y, w and h is multiplied by dpr and rounded
    to the nearest integer, then x and y are clamped to a minimum of 0
    and w and h to a minimum of 1.  That rectangle is the source
    rectangle of the crop. *)
Theorem crop_done_conversion
    (st st' : ContentScript.state) (devicePixelRatio : float)
    (m : ContentScript.crop_done) :
  ContentScript.onMouseUp devicePixelRatio st = (st', [m]) ->
  let r := ContentScript.getBoxRect st in
  let dpr := ContentScript.num_or devicePixelRatio 1 in
  m = ContentScript.CropDone (ContentScript.x r) (ContentScript.y r)
        (ContentScript.w r) (ContentScript.h r) dpr
  /\ Popup.onCropDone m
     = Popup.SourceRect
         (Js.Math_max 0 (Js.Math_round (ContentScript.x r * dpr)))
         (Js.Math_max 0 (Js.Math_round (ContentScript.y r * dpr)))
         (Js.Math_max 1 (Js.Math_round (ContentScript.w r * dpr)))
         (Js.Math_max 1 (Js.Math_round (ContentScript.h r * dpr))).
Proof.
  intros H r dpr. unfold ContentScript.onMouseUp in H.
  destruct (ContentScript.active st); cbn [negb] in H; [|discriminate H].
  change (ContentScript.getBoxRect
            (ContentScript.State (ContentScript.overlay st)
               (ContentScript.box st) (ContentScript.startX st)
               (ContentScript.startY st) false)) with r in H.
  destruct ((ContentScript.w r <? 2)%float || (ContentScript.h r <? 2)%float);
    [discriminate H|].
  injection H as _ <-. split; reflexivity.
Qed.

(** C4 (as amended).  In the browser extension a selection finalized
    with w < 2 or h < 2 is dropped: mouse-up sends no message and only
    removes the overlay (the script has nothing that reports an error).
    In the editor panel a selection with w < 2 or h < 2 is not cropped
    either, but it is not dropped: [runOcrNow] replaces it by the region
    of the whole drawn image, and posts one recognition request for that
    region. *)
Theorem degenerate_selection_by_variant
    (cs : ContentScript.state) (devicePixelRatio : float)
    (st : Webview.state) (i : Webview.draw_info) :
  ((ContentScript.w (ContentScript.getBoxRect cs) <? 2)%float = true
   \/ (ContentScript.h (ContentScript.getBoxRect cs) <? 2)%float = true) ->
  Webview.hasImage st = true ->
  Webview.degenerate (Webview.normalizedRect st) = true ->
  Webview.drawInfo st = Some i ->
  0 <= Webview.drawW i -> 0 <= Webview.drawH i ->
  snd (ContentScript.onMouseUp devicePixelRatio cs) = []
  /\ (ContentScript.active cs = true ->
      fst (ContentScript.onMouseUp devicePixelRatio cs)
      = ContentScript.removeOverlay cs)
  /\ Webview.posted (Webview.runOcrNow st)
     = Webview.posted st ++
       [Protocol.RunOcr
          (Protocol.DataUrl (Webview.offsetX i) (Webview.offsetY i)
             (Z.max 1 (Webview.drawW i)) (Z.max 1 (Webview.drawH i))
             (Webview.getThresholdVal st) (Webview.getScaleVal st))
          (Webview.getThresholdVal st) (Webview.getScaleVal st)].
Proof.
  intros Hdeg Himg Hrect Hinfo Hw Hh. split; [|split].
  - unfold ContentScript.onMouseUp.
    destruct (ContentScript.active cs); cbn [negb]; [|reflexivity].
    change (ContentScript.getBoxRect
              (ContentScript.State (ContentScript.overlay cs)
                 (ContentScript.box cs) (ContentScript.startX cs)
                 (ContentScript.startY cs) false))
      with (ContentScript.getBoxRect cs).
    destruct Hdeg as [-> | ->]; rewrite ?orb_true_r; reflexivity.
  - intros Hact. unfold ContentScript.onMouseUp. rewrite Hact. cbn [negb].
    change (ContentScript.getBoxRect
              (ContentScript.State (ContentScript.overlay cs)
                 (ContentScript.box cs) (ContentScript.startX cs)
                 (ContentScript.startY cs) false))
      with (ContentScript.getBoxRect cs).
    destruct Hdeg as [-> | ->]; rewrite ?orb_true_r; reflexivity.
  - unfold Webview.runOcrNow. rewrite Himg, Hrect. cbn [negb].
    unfold Webview.selectFullImageRegion. rewrite Hinfo.
    unfold Webview.cropToDataUrl, Webview.getThresholdVal,
      Webview.getScaleVal. cbn.
    do 3 f_equal. f_equal; lia.
Qed.

End AdapterClaims.

Lemma flagged_response_fails_witness :
  let res := OcrSpace.Response true []
               (OcrSpace.Json true
                  (OcrSpace.EMArray
                     [JsString.lit "E101"; JsString.lit "Timed out"])
                  []) in
  ExtensionHost.reply res 12 = Protocol.OcrError (JsString.lit "E101")
  /\ Popup.onClickOcr (Some (OcrSpace.body res))
     = Popup.ShownError (JsString.lit "OCR error: E101, Timed out").
Proof.
  destruct (flagged_response_fails
    (OcrSpace.Response true []
       (OcrSpace.Json true
          (OcrSpace.EMArray [JsString.lit "E101"; JsString.lit "Timed out"])
          [])) 12 (panel_with_image (Webview.DrawInfo 0 0 800 400)) eq_refl)
    as [[m (_ & Hr & _ & Hm)] [t (Hp & _ & Ht)]].
  split.
  - rewrite Hr, Hm. reflexivity.
  - rewrite Hp, (Ht _ _ _ eq_refl). reflexivity.
Defined.

(** C9, counterexample.  The service supplies two messages.  The host
    reports the first one only, and when the first one is empty it
    reports "Error" although a message is available; the popup shows
    both, joined with ", ". *)
Lemma host_reports_first_message_only :
  let two := OcrSpace.Json true
               (OcrSpace.EMArray
                  [JsString.lit "E101"; JsString.lit "Timed out"]) [] in
  let hidden := OcrSpace.Json true
                  (OcrSpace.EMArray [[]; JsString.lit "Timed out"]) [] in
  ExtensionHost.reply (OcrSpace.Response true [] two) 12
  = Protocol.OcrError (JsString.lit "E101")
  /\ Popup.onClickOcr (Some two)
     = Popup.ShownError (JsString.lit "OCR error: E101, Timed out")
  /\ ExtensionHost.reply (OcrSpace.Response true [] hidden) 12
     = Protocol.OcrError (JsString.lit "Error")
  /\ Popup.onClickOcr (Some hidden)
     = Popup.ShownError (JsString.lit "OCR error: , Timed out").
Proof. vm_compute. repeat split. Qed.

Lemma crop_done_conversion_witness :
  Popup.onCropDone (ContentScript.CropDone 10 20 3 5 2)
  = Popup.SourceRect 20 40 6 10.
Proof.
  destruct (crop_done_conversion drag_3_by_5
              (ContentScript.removeOverlay drag_3_by_5) 2
              (ContentScript.CropDone 10 20 3 5 2)) as [_ H].
  - vm_compute. reflexivity.
  - rewrite H. vm_compute. reflexivity.
Defined.

(** C6, counterexample.  A selection of 3 by 5 display pixels at
    dpr = 1.5 is sent in display pixels, and the popup crops 5 by 8 device
    pixels: 4.5 and 7.5 are rounded, where flooring gives 4 by 7. *)
Lemma popup_rounds_width_and_height :
  snd (ContentScript.onMouseUp 1.5 drag_3_by_5)
  = [ContentScript.CropDone 10 20 3 5 1.5]
  /\ Popup.onCropDone (ContentScript.CropDone 10 20 3 5 1.5)
     = Popup.SourceRect 15 30 5 8
  /\ Popup.device_rect_as_specified (ContentScript.CropDone 10 20 3 5 1.5)
     = Popup.SourceRect 15 30 4 7.
Proof. vm_compute. repeat split. Qed.

Lemma degenerate_selection_by_variant_witness :
  Webview.posted
    (Webview.runOcrNow (panel_with_image (Webview.DrawInfo 0 0 800 400)))
  = [Protocol.RunOcr (Protocol.DataUrl 0 0 800 400 160 2) 160 2].
Proof.
  destruct (degenerate_selection_by_variant
              (ContentScript.onMouseDown 0 10 20
                 (ContentScript.createOverlay
                    (ContentScript.State false None 0 0 false)))
              1
              (panel_with_image (Webview.DrawInfo 0 0 800 400))
              (Webview.DrawInfo 0 0 800 400)) as (_ & _ & H).
  - left. vm_compute. reflexivity.
  - reflexivity.
  - reflexivity.
  - reflexivity.
  - simpl. lia.
  - simpl. lia.
  - rewrite H. vm_compute. reflexivity.
Defined.

(** C4, counterexample.  In the editor panel a click without a drag
    finalizes a selection of 0 by 0; when the timeout fires a recognition
    request is posted all the same, for the whole image.  When the image
    is drawn one pixel wide, the rectangle that is cropped and sent is
    itself 1 pixel wide. *)
Lemma panel_degenerate_selection_runs_ocr :
  let wide := panel_with_image (Webview.DrawInfo 0 0 800 400) in
  let narrow := panel_with_image (Webview.DrawInfo 399 0 1 400) in
  let click x y := [(0, Webview.MouseDown x y); (5, Webview.MouseUp x y)] in
  Webview.normalizedRect (Webview.run wide (click 10 10)) = None
  /\ Webview.posted (Webview.settle (Webview.run wide (click 10 10)))
     = [Protocol.RunOcr (Protocol.DataUrl 0 0 800 400 160 2) 160 2]
  /\ Webview.normalizedRect (Webview.run narrow (click 399 10)) = None
  /\ Webview.posted (Webview.settle (Webview.run narrow (click 399 10)))
     = [Protocol.RunOcr (Protocol.DataUrl 399 0 1 400 160 2) 160 2].
Proof. vm_compute. repeat split. Qed.

(** ** The scheduler of the editor panel *)

Module SchedulerFacts.
Import Webview Protocol.

Lemma getThresholdVal_ext st st' :
  thr_value st = thr_value st' -> getThresholdVal st = getThresholdVal st'.
Proof. unfold getThresholdVal. by intros ->. Qed.

Lemma getScaleVal_ext st st' :
  scale_value st = scale_value st' -> getScaleVal st = getScaleVal st'.
Proof. unfold getScaleVal. by intros ->. Qed.

(** What one handler other than the manual button does to the fields
    the scheduler depends on. *)
Lemma handle_quiet now e st :
  e <> ClickOcr -> hasImage st = true ->
  posted (handle now e st) = posted st
  /\ hasImage (handle now e st) = true
  /\ ocrTimer (handle now e st)
     = (if triggers st e then Some (now + 450) else ocrTimer st)
  /\ thr_value (handle now e st)
     = match e with ThrInput v => v | _ => thr_value st end
  /\ scale_value (handle now e st)
     = match e with ScaleInput v => v | _ => scale_value st end.
Proof.
  intros Hclick Himg.
  destruct e as [v|v|x y|x y|x y| |m]; cbn [handle triggers].
  - unfold onThrInput, scheduleOcr. cbn. rewrite Himg. cbn. done.
  - unfold onScaleInput, scheduleOcr. cbn. rewrite Himg. cbn. done.
  - unfold onMouseDown. rewrite Himg. cbn [negb].
    destruct (withinImage st x y); cbn; done.
  - unfold onMouseMove. destruct (isDragging (sel st)); cbn; done.
  - unfold onMouseUp, scheduleOcr.
    destruct (isDragging (sel st)); cbn; [|done].
    rewrite Himg. cbn. done.
  - done.
  - destruct m; cbn; done.
Qed.

(** A timeout that is not due does not run. *)
Lemma tick_not_due now st :
  match ocrTimer st with Some d => now < d | None => True end ->
  tick now st = st.
Proof.
  unfold tick. destruct (ocrTimer st) as [d|]; [|done].
  intros H. by rewrite (proj2 (Z.leb_gt d now)).
Qed.

Lemma run_cons st now e evs :
  run st ((now, e) :: evs) = run (handle now e (tick now st)) evs.
Proof. reflexivity. Qed.

Lemma run_quiet evs : forall st,
  hasImage st = true ->
  within_quiet_period (ocrTimer st) st evs ->
  posted (run st evs) = posted st
  /\ hasImage (run st evs) = true
  /\ (is_Some (ocrTimer st) \/ some_trigger st evs = true ->
      is_Some (ocrTimer (run st evs)))
  /\ thr_value (run st evs) = last_thr evs (thr_value st)
  /\ scale_value (run st evs) = last_scale evs (scale_value st).
Proof.
  induction evs as [|[now e] evs IH]; intros st Himg Hq.
  - cbn. repeat split; try done. intros [H|H]; [done|discriminate H].
  - cbn [within_quiet_period] in Hq. destruct Hq as (Hclick & Hdue & Hq).
    rewrite run_cons, (tick_not_due now st Hdue).
    destruct (handle_quiet now e st Hclick Himg)
      as (Hp & Hi & Ht & Hthr & Hsc).
    rewrite <- Ht in Hq.
    destruct (IH (handle now e st) Hi Hq) as (IHp & IHi & IHt & IHthr & IHsc).
    repeat split.
    + by rewrite IHp.
    + exact IHi.
    + intros Hsome. apply IHt. rewrite Ht.
      cbn [some_trigger] in Hsome.
      destruct (triggers st e); [left; by eexists|].
      destruct Hsome as [H|H]; [by left|by right].
    + rewrite IHthr, Hthr. unfold last_thr. cbn [fold_left snd].
      by destruct e.
    + rewrite IHsc, Hsc. unfold last_scale. cbn [fold_left snd].
      by destruct e.
Qed.

(** The timeout callback posts exactly one request, with the slider
    values of the moment. *)
Lemma fire_posts_one st :
  hasImage st = true ->
  exists url,
    posted (fire st)
    = posted st ++ [RunOcr url (getThresholdVal st) (getScaleVal st)]
    /\ crop_threshold url = getThresholdVal st
    /\ crop_scale url = getScaleVal st.
Proof.
  intros Himg. unfold fire, runOcrNow. cbn [hasImage set_timer].
  rewrite Himg. cbn [negb].
  set (st0 := set_timer None st).
  set (st1 := if degenerate (normalizedRect st0)
              then selectFullImageRegion st0 else st0).
  assert (Hthr : thr_value st1 = thr_value st).
  { subst st1. destruct (degenerate _); [|done].
    unfold selectFullImageRegion. by destruct (drawInfo st0). }
  assert (Hsc : scale_value st1 = scale_value st).
  { subst st1. destruct (degenerate _); [|done].
    unfold selectFullImageRegion. by destruct (drawInfo st0). }
  assert (Hp : posted st1 = posted st).
  { subst st1. destruct (degenerate _); [|done].
    unfold selectFullImageRegion. by destruct (drawInfo st0). }
  rewrite (getThresholdVal_ext st1 st Hthr), (getScaleVal_ext st1 st Hsc).
  eexists. split; [|split].
  - cbn [postMessage posted setBusy set_ui]. rewrite Hp. reflexivity.
  - reflexivity.
  - reflexivity.
Qed.

End SchedulerFacts.

Section SchedulerClaims.
Import Webview Protocol WebviewMore SchedulerFacts.

(** C5.  Start with an image loaded and no timeout pending, and take a
    burst of events that contains at least one triggering event (a
    threshold or scale input, or a mouse-up that finalizes a drag), in
    which every event arrives less than 450 ms after the latest
    triggering event before it.  No recognition request is posted during
    the burst, and when the timeout fires exactly one is posted.  Its
    threshold is the value of the last threshold input of the burst (the
    value the slider held before the burst when there is none), clamped
    to [0, 255], or 160 when that value is not finite; its scale is the
    value of the last scale input, clamped to [1, 4], or 2 when not
    finite.  The image it carries is made with the same two values, and
    they are the ones the sliders give at that moment. *)
Theorem debounce_issues_one_call (st : state) (evs : list (Z * event)) :
  hasImage st = true ->
  ocrTimer st = None ->
  within_quiet_period None st evs ->
  some_trigger st evs = true ->
  let st' := run st evs in
  let thr := clamp_threshold (last_thr evs (thr_value st)) in
  let sc := clamp_scale (last_scale evs (scale_value st)) in
  posted st' = posted st
  /\ thr_value st' = last_thr evs (thr_value st)
  /\ scale_value st' = last_scale evs (scale_value st)
  /\ getThresholdVal st' = thr
  /\ getScaleVal st' = sc
  /\ exists url,
       posted (settle st') = posted st ++ [RunOcr url thr sc]
       /\ crop_threshold url = thr
       /\ crop_scale url = sc.
Proof.
  intros Himg Htimer Hq Htrig st' thr sc.
  rewrite <- Htimer in Hq.
  destruct (run_quiet evs st Himg Hq) as (Hp & Hi & Ht & Hthr & Hsc).
  fold st' in Hp, Hi, Ht, Hthr, Hsc.
  assert (HT : getThresholdVal st' = thr).
  { change (getThresholdVal st') with (clamp_threshold (thr_value st')).
    subst thr. by rewrite Hthr. }
  assert (HS : getScaleVal st' = sc).
  { change (getScaleVal st') with (clamp_scale (scale_value st')).
    subst sc. by rewrite Hsc. }
  split; [exact Hp|]. split; [exact Hthr|]. split; [exact Hsc|].
  split; [exact HT|]. split; [exact HS|].
  destruct (Ht (or_intror Htrig)) as [d Hd].
  unfold settle. rewrite Hd.
  destruct (fire_posts_one st' Hi) as (url & Hurl & Hct & Hcs).
  exists url. rewrite Hurl, Hp, Hct, Hcs, HT, HS. done.
Qed.

End SchedulerClaims.

Lemma debounce_issues_one_call_witness :
  let st := panel_with_image (Webview.DrawInfo 0 0 800 400) in
  let evs := [(0, Webview.ThrInput 150); (100, Webview.ScaleInput 3);
              (400, Webview.ThrInput 120); (849, Webview.ScaleInput 4)] in
  exists url,
    Webview.posted (Webview.settle (Webview.run st evs))
    = [Protocol.RunOcr url 120 4]
    /\ Protocol.crop_threshold url = 120%float
    /\ Protocol.crop_scale url = 4%float.
Proof.
  destruct (debounce_issues_one_call
              (panel_with_image (Webview.DrawInfo 0 0 800 400))
              [(0, Webview.ThrInput 150); (100, Webview.ScaleInput 3);
               (400, Webview.ThrInput 120); (849, Webview.ScaleInput 4)])
    as (_ & _ & _ & _ & _ & url & H & Ht & Hs).
  - reflexivity.
  - reflexivity.
  - cbn. repeat split; try discriminate; lia.
  - reflexivity.
  - exists url. split; [exact H|]. split; [exact Ht|exact Hs].
Defined.

(** The burst above, settled: one request, with threshold 120 and scale 4. *)
Example debounce_burst_of_four :
  let st := panel_with_image (Webview.DrawInfo 0 0 800 400) in
  let evs := [(0, Webview.ThrInput 150); (100, Webview.ScaleInput 3);
              (400, Webview.ThrInput 120); (849, Webview.ScaleInput 4)] in
  Webview.posted (Webview.settle (Webview.run st evs))
  = [Protocol.RunOcr (Protocol.DataUrl 0 0 800 400 120 4) 120 4].
Proof. vm_compute. reflexivity. Qed.

(** A burst whose last inputs are out of range: the one request carries
    the threshold 300 clamped to 255, and the default scale 2 for a scale
    that is not a number. *)
Example debounce_burst_out_of_range :
  let st := panel_with_image (Webview.DrawInfo 0 0 800 400) in
  let evs := [(0, Webview.ThrInput 90); (200, Webview.ThrInput 300);
              (300, Webview.ScaleInput nan)] in
  Webview.posted (Webview.run st evs) = []
  /\ Webview.posted (Webview.settle (Webview.run st evs))
     = [Protocol.RunOcr (Protocol.DataUrl 0 0 800 400 255 2) 255 2].
Proof. vm_compute. split; reflexivity. Qed.

(** A drag finalized at 100 ms followed by a threshold input at 300 ms:
    one request, for the selected region and the new threshold. *)
Example debounce_after_a_drag :
  let st := panel_with_image (Webview.DrawInfo 0 0 800 400) in
  let evs := [(0, Webview.MouseDown 10 10); (50, Webview.MouseMove 100 60);
              (100, Webview.MouseUp 100 60); (300, Webview.ThrInput 140)] in
  Webview.posted (Webview.run st evs) = []
  /\ Webview.posted (Webview.settle (Webview.run st evs))
     = [Protocol.RunOcr (Protocol.DataUrl 10 10 90 50 140 2) 140 2].
Proof. vm_compute. split; reflexivity. Qed.

(** ** Completions in the editor panel *)

Section CompletionClaims.
Import Webview Protocol Panel.

(** The display after a message from the host depends on the message
    only. *)
Lemma onMessage_display m st st' :
  ui (onMessage m st) = ui (onMessage m st').
Proof. destruct m; reflexivity. Qed.

Lemma onMessage_posted m st : posted (onMessage m st) = posted st.
Proof. destruct m; reflexivity. Qed.

(** C2 (as amended).  The panel keeps no generation: when a call that is
    in flight completes, the "ocr-result" or "ocr-error" message the host
    sends for it is applied to the display as it is, whether or not a
    newer request has been posted in the meantime.  The display after the
    completion is the one that message alone determines (it does not
    depend on the state of the panel), the busy state is released, and
    the list of posted requests is unchanged. *)
Theorem completion_is_applied_unconditionally
    (s : system) (k : nat) (res : OcrSpace.response) (durationMs : Z)
    (any : Webview.state) :
  k ∈ inflight s ->
  let s' := sys_step s (Completes k res durationMs) in
  ui (view s') = ui (onMessage (ExtensionHost.reply res durationMs) any)
  /\ busy (ui (view s')) = false
  /\ posted (view s') = posted (view s)
  /\ k ∉ inflight s'.
Proof.
  intros Hk s'. subst s'. cbn [sys_step].
  rewrite bool_decide_eq_true_2 by exact Hk. cbn [view inflight].
  split; [apply onMessage_display|]. split.
  - destruct (ExtensionHost.reply res durationMs); reflexivity.
  - split; [apply onMessage_posted|].
    rewrite list_elem_of_filter. intros [Hne _]. by apply Hne.
Qed.

End CompletionClaims.

Lemma completion_is_applied_unconditionally_witness :
  Webview.output_value (Webview.ui (Panel.view after_stale_completion))
  = JsString.lit "OLD".
Proof.
  destruct (completion_is_applied_unconditionally
              after_fresh_completion 0 (answer "OLD") 900
              (panel_with_image (Webview.DrawInfo 0 0 800 400))) as [H _].
  - vm_compute. apply list_elem_of_here.
  - unfold after_stale_completion. rewrite H. vm_compute. reflexivity.
Defined.

(** C2, counterexample.  Two requests are posted, 500 ms apart, and both
    calls are in flight.  The call of the second request completes first
    and its text is shown; the call of the first request, now stale,
    completes afterwards and its text replaces the newer one. *)
Lemma stale_completion_overwrites :
  length (Webview.posted (Panel.view two_requests_in_flight)) = 2%nat
  /\ Panel.inflight two_requests_in_flight = [0%nat; 1%nat]
  /\ Webview.output_value (Webview.ui (Panel.view after_fresh_completion))
     = JsString.lit "NEW"
  /\ Panel.stale after_fresh_completion 0
  /\ Webview.output_value (Webview.ui (Panel.view after_stale_completion))
     = JsString.lit "OLD".
Proof.
  split; [|split; [|split; [|split]]]; try (vm_compute; reflexivity).
  split.
  - vm_compute. apply list_elem_of_here.
  - vm_compute. lia.
Qed.

(* ===================================================================== *)
(** * Further properties of the code *)
(* ===================================================================== *)

(** ** Comparisons of Numbers *)

Module NumberFacts.

Lemma ltb_leb x y : (x <? y)%float = true -> (x <=? y)%float = true.
Proof.
  rewrite ltb_spec, leb_spec. unfold SFltb, SFleb.
  destruct (SFcompare _ _) as [[]|]; congruence.
Qed.

Lemma SFcompare_antisym x y c :
  SFcompare x y = Some c -> SFcompare y x = Some (CompOpp c).
Proof.
  destruct x as [[]|[]| |[] m1 e1], y as [[]|[]| |[] m2 e2]; cbn;
    try (intros [= <-]; reflexivity); try discriminate.
  - intros [= <-]. f_equal. rewrite (Z.compare_antisym e1 e2).
    destruct (e1 ?= e2) eqn:He; cbn; try reflexivity.
    change (PosDef.Pos.compare_cont Eq m2 m1) with (Pos.compare m2 m1).
    change (PosDef.Pos.compare_cont Eq m1 m2) with (Pos.compare m1 m2).
    by rewrite (Pos.compare_antisym m1 m2).
  - intros [= <-]. f_equal. rewrite (Z.compare_antisym e1 e2).
    destruct (e1 ?= e2) eqn:He; cbn; try reflexivity.
    change (PosDef.Pos.compare_cont Eq m2 m1) with (Pos.compare m2 m1).
    change (PosDef.Pos.compare_cont Eq m1 m2) with (Pos.compare m1 m2).
    by rewrite (Pos.compare_antisym m1 m2).
Qed.

Lemma not_nan_SF x : is_nan x = false -> Prim2SF x <> S754_nan.
Proof.
  unfold is_nan. rewrite FloatAxioms.eqb_spec. unfold SFeqb. intros H Hx.
  rewrite Hx in H. discriminate H.
Qed.

Lemma SFcompare_defined x y :
  x <> S754_nan -> y <> S754_nan -> exists c, SFcompare x y = Some c.
Proof.
  destruct x as [[]|[]| |[] m1 e1], y as [[]|[]| |[] m2 e2]; cbn;
    intros Hx Hy; try done; eauto.
Qed.

(** Two Numbers that are not NaN are comparable. *)
Lemma not_ltb_leb x y :
  is_nan x = false -> is_nan y = false ->
  (x <? y)%float = false -> (y <=? x)%float = true.
Proof.
  intros Hx%not_nan_SF Hy%not_nan_SF. rewrite ltb_spec, leb_spec.
  unfold SFltb, SFleb.
  destruct (SFcompare_defined _ _ Hx Hy) as [c Hc].
  rewrite Hc, (SFcompare_antisym _ _ _ Hc). by destruct c.
Qed.

Lemma leb_refl x : is_nan x = false -> (x <=? x)%float = true.
Proof.
  unfold is_nan. rewrite FloatAxioms.eqb_spec, leb_spec. unfold SFeqb, SFleb.
  destruct (SFcompare _ _) as [[]|]; cbn; congruence.
Qed.

Lemma truthy_not_nan x : Js.truthy x = true -> is_nan x = false.
Proof. unfold Js.truthy. destruct (is_nan x); [done|done]. Qed.

Lemma isFinite_not_nan x : Js.isFinite x = true -> is_nan x = false.
Proof. unfold Js.isFinite, is_finite. by destruct (is_nan x). Qed.

(** [Math.max(a, b)] is NaN or one of its arguments, and not below
    either. *)
Lemma Math_max_spec a b :
  is_nan a = false -> is_nan b = false ->
  (Js.Math_max a b = a \/ Js.Math_max a b = b)
  /\ (a <=? Js.Math_max a b)%float = true
  /\ (b <=? Js.Math_max a b)%float = true.
Proof.
  intros Ha Hb. unfold Js.Math_max. rewrite Ha, Hb. cbn [orb].
  destruct (a <? b)%float eqn:Hab.
  - split; [by right|]. split; [by apply ltb_leb|by apply leb_refl].
  - destruct (b <? a)%float eqn:Hba.
    + split; [by left|]. split; [by apply leb_refl|by apply ltb_leb].
    + destruct (get_sign a).
      * split; [by right|]. split; [by apply not_ltb_leb|by apply leb_refl].
      * split; [by left|]. split; [by apply leb_refl|by apply not_ltb_leb].
Qed.

Lemma Math_min_spec a b :
  is_nan a = false -> is_nan b = false ->
  (Js.Math_min a b = a \/ Js.Math_min a b = b)
  /\ (Js.Math_min a b <=? a)%float = true
  /\ (Js.Math_min a b <=? b)%float = true.
Proof.
  intros Ha Hb. unfold Js.Math_min. rewrite Ha, Hb. cbn [orb].
  destruct (a <? b)%float eqn:Hab.
  - split; [by left|]. split; [by apply leb_refl|by apply ltb_leb].
  - destruct (b <? a)%float eqn:Hba.
    + split; [by right|]. split; [by apply ltb_leb|by apply leb_refl].
    + destruct (get_sign a).
      * split; [by left|]. split; [by apply leb_refl|by apply not_ltb_leb].
      * split; [by right|]. split; [by apply not_ltb_leb|by apply leb_refl].
Qed.

Lemma Math_max_nan a b :
  is_nan (Js.Math_max a b) = is_nan a || is_nan b.
Proof.
  unfold Js.Math_max. destruct (is_nan a) eqn:Ha; [reflexivity|].
  destruct (is_nan b) eqn:Hb; [reflexivity|]. cbn [orb].
  destruct (a <? b)%float, (b <? a)%float, (get_sign a); done.
Qed.

(** Clamping a Number that is not NaN between two bounds lo <= hi. *)
Lemma clamp_between lo hi v :
  is_nan lo = false -> is_nan hi = false -> is_nan v = false ->
  (lo <=? hi)%float = true ->
  (lo <=? Js.Math_max lo (Js.Math_min hi v))%float = true
  /\ (Js.Math_max lo (Js.Math_min hi v) <=? hi)%float = true.
Proof.
  intros Hlo Hhi Hv Hle.
  destruct (Math_min_spec hi v Hhi Hv) as (Hm & Hmhi & _).
  assert (Hmn : is_nan (Js.Math_min hi v) = false)
    by (destruct Hm as [-> | ->]; done).
  destruct (Math_max_spec lo _ Hlo Hmn) as (Hx & Hxlo & _).
  split; [exact Hxlo|]. destruct Hx as [-> | ->]; done.
Qed.

End NumberFacts.

(** ** The page component's pipeline, pixel by pixel *)

Module PipelineMore.
Import PageComponent PageFacts PagePipelineFacts.

Lemma px_div k i : (i < 4)%nat -> ((4 * k + i) / 4 = k)%nat.
Proof.
  intros Hi. rewrite Nat.mul_comm, Nat.div_add_l by lia.
  rewrite Nat.div_small by lia. lia.
Qed.

Lemma px_mod k i : (i < 4)%nat -> ((4 * k + i) mod 4 = i)%nat.
Proof.
  intros Hi. rewrite Nat.add_comm, Nat.mul_comm, Nat.Div0.mod_add.
  by apply Nat.mod_small.
Qed.

Lemma px_div0 k : ((4 * k) / 4 = k)%nat.
Proof. rewrite Nat.mul_comm. apply Nat.div_mul. lia. Qed.

Lemma grayscale_stage_length d : length (grayscale_stage d) = length d.
Proof. apply for_each_px_length, grayscale_body_length. Qed.

Lemma threshold_stage_length t d : length (threshold_stage t d) = length d.
Proof. apply for_each_px_length, threshold_body_length. Qed.

Lemma invert_stage_length d : length (invert_stage d) = length d.
Proof. apply for_each_px_length, invert_body_length. Qed.

Lemma preprocess_length c d : length (preprocess c d) = length d.
Proof.
  unfold preprocess.
  destruct (grayscale c || thresholdEnabled c), (thresholdEnabled c),
    (invert c);
    by rewrite ?invert_stage_length, ?threshold_stage_length,
         ?grayscale_stage_length.
Qed.

Lemma grayscale_stage_px d k i :
  (i < 3)%nat -> (4 * k + i < length d)%nat ->
  grayscale_stage d !! (4 * k + i)%nat
  = Some (gray_of (d !! (4 * k)%nat) (d !! (4 * k + 1)%nat)
            (d !! (4 * k + 2)%nat)).
Proof.
  intros Hi Hlen. rewrite grayscale_stage_lookup, px_div by lia.
  rewrite decide_True; [done|]. rewrite px_mod by lia. lia.
Qed.

Lemma threshold_stage_px t d k i :
  (i < 3)%nat -> (4 * k + i < length d)%nat ->
  threshold_stage t d !! (4 * k + i)%nat = Some (bin_of t (d !! (4 * k)%nat)).
Proof.
  intros Hi Hlen. rewrite threshold_stage_lookup, px_div by lia.
  rewrite decide_True; [done|]. rewrite px_mod by lia. lia.
Qed.

Lemma invert_stage_px d k i :
  (i < 3)%nat ->
  invert_stage d !! (4 * k + i)%nat
  = (fun v => Js.clamp8 (255 - v)) <$> d !! (4 * k + i)%nat.
Proof.
  intros Hi. rewrite invert_stage_lookup, decide_True; [done|].
  rewrite px_mod by lia. lia.
Qed.

Lemma grayscale_stage_px0 d k :
  (4 * k < length d)%nat ->
  grayscale_stage d !! (4 * k)%nat
  = Some (gray_of (d !! (4 * k)%nat) (d !! (4 * k + 1)%nat)
            (d !! (4 * k + 2)%nat)).
Proof.
  intros H. pose proof (grayscale_stage_px d k 0) as Hpx.
  rewrite Nat.add_0_r in Hpx. apply Hpx; lia.
Qed.

(** A gray pixel is a fixed point of the luminance: for every byte v,
    round(0.299 v + 0.587 v + 0.114 v) is v in binary64 arithmetic. *)
Lemma gray_of_gray v :
  Js.is_byte v -> gray_of (Some v) (Some v) (Some v) = v.
Proof.
  intros [H0 H255].
  assert (Hall : forallb
            (fun n => gray_of (Some (Z.of_nat n)) (Some (Z.of_nat n))
                        (Some (Z.of_nat n)) =? Z.of_nat n)
            (seq 0 256) = true) by (vm_compute; reflexivity).
  rewrite forallb_forall in Hall.
  specialize (Hall (Z.to_nat v)). rewrite Z2Nat.id in Hall by lia.
  apply Z.eqb_eq, Hall, in_seq. lia.
Qed.

Lemma bin_of_stable t v :
  0 <= t -> (forall L, v = Some L -> L <= 255) ->
  bin_of t (Some (bin_of t v)) = bin_of t v.
Proof.
  intros Ht Hv. destruct v as [L|]; cbn.
  - specialize (Hv L eq_refl).
    destruct (t <? L) eqn:HL.
    + apply Z.ltb_lt in HL. by rewrite (proj2 (Z.ltb_lt t 255)) by lia.
    + by rewrite (proj2 (Z.ltb_ge t 0)) by lia.
  - by rewrite (proj2 (Z.ltb_ge t 0)) by lia.
Qed.

Lemma whole_pixel (d : list Z) j :
  (length d mod 4 = 0)%nat -> (j < length d)%nat ->
  (4 * (j / 4) + 3 < length d)%nat.
Proof.
  intros Hlen Hj. pose proof (Nat.div_mod_eq (length d) 4).
  pose proof (Nat.div_mod_eq j 4). pose proof (Nat.mod_upper_bound j 4).
  assert (j / 4 < length d / 4)%nat; [|lia].
  apply Nat.Div0.div_lt_upper_bound. lia.
Qed.

Lemma j_in_pixel j : (j = 4 * (j / 4) + j mod 4)%nat.
Proof. apply Nat.div_mod_eq. Qed.

Lemma grayscale_stage_gray d :
  (length d mod 4 = 0)%nat -> gray_image (grayscale_stage d).
Proof.
  intros Hlen. split; [by rewrite grayscale_stage_length|].
  rewrite grayscale_stage_length. intros k Hk.
  assert (4 * k + 3 < length d)%nat.
  { pose proof (whole_pixel d (4 * k) Hlen Hk) as H.
    rewrite px_div0 in H. lia. }
  eexists. split; [apply ToUint8Clamp_byte|].
  rewrite <- (Nat.add_0_r (4 * k)) at 1.
  rewrite !grayscale_stage_px by lia. done.
Qed.

Lemma threshold_stage_gray t d :
  (length d mod 4 = 0)%nat -> gray_image (threshold_stage t d).
Proof.
  intros Hlen. split; [by rewrite threshold_stage_length|].
  rewrite threshold_stage_length. intros k Hk.
  assert (4 * k + 3 < length d)%nat.
  { pose proof (whole_pixel d (4 * k) Hlen Hk) as H.
    rewrite px_div0 in H. lia. }
  eexists. split; [apply bin_of_byte|].
  rewrite <- (Nat.add_0_r (4 * k)) at 1.
  rewrite !threshold_stage_px by lia. done.
Qed.

(** The grayscale stage leaves a gray image as it is. *)
Lemma grayscale_stage_fixed d : gray_image d -> grayscale_stage d = d.
Proof.
  intros [Hlen Hpx]. apply list_eq. intros j.
  rewrite grayscale_stage_lookup. case_decide as Hj; [|done].
  destruct Hj as [Hmod Hj].
  pose proof (whole_pixel d j Hlen Hj) as Hw.
  destruct (Hpx (j / 4)%nat) as (v & Hv & H0 & H1 & H2); [lia|].
  rewrite H0, H1, H2, (gray_of_gray v Hv).
  pose proof (Nat.mod_upper_bound j 4).
  rewrite (j_in_pixel j) at 1.
  destruct (j mod 4)%nat as [|[|[|]]] eqn:Hm;
    rewrite ?Nat.add_0_r; try done; lia.
Qed.

End PipelineMore.

Section PipelineProperties.
Import PageComponent PageFacts PagePipelineFacts PipelineMore.

(** X1.  Both pixel pipelines return an array of the length of their
    input. *)
Theorem pipelines_keep_the_length
    (c : config) (t : float) (data : list Z) :
  length (preprocess c data) = length data
  /\ length (Webview.binarize t data) = length data.
Proof.
  split; [apply preprocess_length|].
  apply for_each_px_length, WebviewPixelFacts.binarize_body_length.
Qed.

(** X2.  When grayscale or thresholdEnabled is set, the three colour
    channels of every pixel of the page component's output are equal,
    with invert enabled or not. *)
Theorem output_channels_are_equal (c : config) (data : list Z) (k : nat) :
  grayscale c || thresholdEnabled c = true ->
  (4 * k + 2 < length data)%nat ->
  exists v,
    preprocess c data !! (4 * k)%nat = Some v
    /\ preprocess c data !! (4 * k + 1)%nat = Some v
    /\ preprocess c data !! (4 * k + 2)%nat = Some v.
Proof.
  intros Hflag Hlen.
  assert (Hpx : exists v, forall i, (i < 3)%nat ->
            preprocess c data !! (4 * k + i)%nat = Some v).
  { unfold preprocess. rewrite Hflag.
    destruct (thresholdEnabled c), (invert c); eexists; intros i Hi;
      rewrite ?invert_stage_px, ?threshold_stage_px, ?grayscale_stage_px
        by (rewrite ?threshold_stage_length, ?grayscale_stage_length; lia);
      rewrite ?grayscale_stage_px0 by lia; cbn; reflexivity. }
  destruct Hpx as [v Hv]. exists v.
  pose proof (Hv 0%nat) as H0. rewrite Nat.add_0_r in H0.
  repeat split; [apply H0|apply Hv|apply Hv]; lia.
Qed.

(** X3.  When thresholdEnabled is set, every colour byte of the page
    component's output is 0 or 255, with invert enabled or not. *)
Theorem threshold_output_is_binary
    (c : config) (data : list Z) (j : nat) (v : Z) :
  thresholdEnabled c = true ->
  (j mod 4 <> 3)%nat ->
  preprocess c data !! j = Some v ->
  v = 0 \/ v = 255.
Proof.
  intros Hthr Hmod. unfold preprocess. rewrite Hthr, orb_true_r.
  assert (Hbin : forall w,
    threshold_stage (threshold c) (grayscale_stage data) !! j = Some w ->
    w = 0 \/ w = 255).
  { intros w. rewrite threshold_stage_lookup. case_decide as Hj.
    - intros [= <-]. unfold bin_of.
      destruct (grayscale_stage data !! _) as [L|]; [|by left].
      destruct (threshold c <? L); [by right|by left].
    - intros Hw%lookup_lt_Some. tauto. }
  destruct (invert c); [|apply Hbin].
  rewrite invert_stage_lookup, decide_True by done.
  destruct (threshold_stage _ _ !! j) as [w|] eqn:Hw; [|done].
  cbn. intros [= <-]. destruct (Hbin w eq_refl) as [-> | ->];
    [by right|by left].
Qed.

(** X4.  Raising the threshold never turns a black pixel white: with
    thresholdEnabled set and invert off, every byte of the output at a
    higher threshold is at most the byte at a lower one. *)
Theorem threshold_is_monotone
    (g : bool) (s t1 t2 : Z) (data : list Z) (j : nat) (v1 v2 : Z) :
  t1 <= t2 ->
  preprocess (Config g false true t1 s) data !! j = Some v1 ->
  preprocess (Config g false true t2 s) data !! j = Some v2 ->
  v2 <= v1.
Proof.
  intros Ht. unfold preprocess. cbn. rewrite orb_true_r.
  rewrite !threshold_stage_lookup. case_decide as Hj.
  - intros [= <-] [= <-]. unfold bin_of.
    destruct (grayscale_stage data !! _) as [L|]; [|lia].
    destruct (t1 <? L) eqn:H1, (t2 <? L) eqn:H2; lia.
  - intros -> [= ->]. lia.
Qed.

(** X5.  With invert off and a threshold that is not negative, running
    the page component's pipeline on its own output changes nothing. *)
Theorem preprocess_is_idempotent (c : config) (data : list Z) :
  invert c = false ->
  0 <= threshold c ->
  (length data mod 4 = 0)%nat ->
  preprocess c (preprocess c data) = preprocess c data.
Proof.
  intros Hinv Ht Hlen. unfold preprocess. rewrite Hinv.
  destruct (thresholdEnabled c) eqn:Hthr; rewrite ?orb_true_r, ?orb_false_r.
  - set (G := grayscale_stage data).
    set (P := threshold_stage (threshold c) G).
    assert (HG : gray_image P).
    { apply threshold_stage_gray. subst G.
      by rewrite grayscale_stage_length. }
    rewrite (grayscale_stage_fixed P HG).
    apply list_eq. intros j. rewrite threshold_stage_lookup.
    case_decide as Hj; [|done]. destruct Hj as [Hmod Hj].
    subst P. rewrite threshold_stage_length in Hj.
    assert (H4 : ((4 * (j / 4)) mod 4 <> 3 /\ 4 * (j / 4) < length G)%nat).
    { rewrite Nat.mul_comm, Nat.Div0.mod_mul.
      pose proof (Nat.div_mod_eq j 4). lia. }
    rewrite !threshold_stage_lookup, px_div0.
    rewrite (decide_True _ _ (conj Hmod Hj)), (decide_True _ _ H4).
    f_equal. apply bin_of_stable; [done|]. intros L HL.
    subst G. rewrite grayscale_stage_length in H4.
    rewrite grayscale_stage_px0 in HL by lia.
    injection HL as <-. apply ToUint8Clamp_byte.
  - destruct (grayscale c); [|done].
    apply grayscale_stage_fixed, grayscale_stage_gray, Hlen.
Qed.

(** X6.  The editor panel's loop turns every whole pixel into black or
    white with full opacity: the three colour bytes hold the same value,
    0 or 255, and alpha is 255. *)
Theorem binarize_output_pixel (t : float) (data : list Z) (k : nat) :
  (4 * k + 3 < length data)%nat ->
  exists v, (v = 0 \/ v = 255)
    /\ Webview.binarize t data !! (4 * k)%nat = Some v
    /\ Webview.binarize t data !! (4 * k + 1)%nat = Some v
    /\ Webview.binarize t data !! (4 * k + 2)%nat = Some v
    /\ Webview.binarize t data !! (4 * k + 3)%nat = Some 255.
Proof.
  intros Hlen. exists (Webview.bin_at t (4 * k) data). split.
  - unfold Webview.bin_at. destruct (_ <=? _)%float; [by right|by left].
  - rewrite !WebviewPixelFacts.binarize_lookup, !px_div, px_div0 by lia.
    rewrite !WebviewPixelFacts.binarize_body_lookup.
    repeat split;
      repeat case_decide; unfold in_rgb in *; try done; lia.
Qed.

End PipelineProperties.

(** ** The editor panel: selection and scheduling over any sequence of
    events *)

Module PanelMore.
Import Webview Protocol WebviewMore NumberFacts.

Lemma getThresholdVal_clamp st :
  getThresholdVal st = clamp_threshold (thr_value st).
Proof. reflexivity. Qed.

Lemma clamp_threshold_range v :
  (0 <=? clamp_threshold v)%float = true
  /\ (clamp_threshold v <=? 255)%float = true.
Proof.
  unfold clamp_threshold. destruct (Js.isFinite v) eqn:Hv.
  - apply clamp_between; try reflexivity. by apply isFinite_not_nan.
  - split; reflexivity.
Qed.

Lemma getScaleVal_range st :
  (1 <=? getScaleVal st)%float = true /\ (getScaleVal st <=? 4)%float = true.
Proof.
  unfold getScaleVal. destruct (Js.isFinite (scale_value st)) eqn:Hv.
  - apply clamp_between; try reflexivity. by apply isFinite_not_nan.
  - split; reflexivity.
Qed.

(** What [runOcrNow] posts when an image is loaded. *)
Lemma runOcrNow_posts st :
  hasImage st = true ->
  exists st1,
    (st1 = st \/ (degenerate (normalizedRect st) = true
                  /\ st1 = selectFullImageRegion st))
    /\ runOcrNow st
       = postMessage
           (RunOcr (cropToDataUrl st1 (getThresholdVal st) (getScaleVal st))
              (getThresholdVal st) (getScaleVal st))
           (setBusy true st1).
Proof.
  intros Himg. unfold runOcrNow. rewrite Himg. cbn [negb].
  destruct (degenerate (normalizedRect st)) eqn:Hd.
  - exists (selectFullImageRegion st). split; [by right|].
    unfold selectFullImageRegion. by destruct (drawInfo st).
  - exists st. split; [by left|done].
Qed.

Lemma selectFullImageRegion_frame st :
  hasImage (selectFullImageRegion st) = hasImage st
  /\ ocrTimer (selectFullImageRegion st) = ocrTimer st
  /\ posted (selectFullImageRegion st) = posted st
  /\ drawInfo (selectFullImageRegion st) = drawInfo st
  /\ thr_value (selectFullImageRegion st) = thr_value st
  /\ scale_value (selectFullImageRegion st) = scale_value st.
Proof.
  unfold selectFullImageRegion. destruct (drawInfo st) eqn:E; cbn; done.
Qed.

Lemma runOcrNow_frame st :
  hasImage (runOcrNow st) = hasImage st
  /\ ocrTimer (runOcrNow st) = ocrTimer st
  /\ thr_value (runOcrNow st) = thr_value st
  /\ scale_value (runOcrNow st) = scale_value st
  /\ drawInfo (runOcrNow st) = drawInfo st.
Proof.
  unfold runOcrNow. destruct (hasImage st) eqn:Himg; cbn [negb]; [|done].
  destruct (selectFullImageRegion_frame st) as (H1 & H2 & _ & H4 & H5 & H6).
  destruct (degenerate _); cbn; rewrite ?H1, ?H2, ?H4, ?H5, ?H6, ?Himg; done.
Qed.

Lemma runOcrNow_posted st :
  posted (runOcrNow st)
  = if hasImage st
    then posted st ++
         [RunOcr (cropToDataUrl
                    (if degenerate (normalizedRect st)
                     then selectFullImageRegion st else st)
                    (getThresholdVal st) (getScaleVal st))
            (getThresholdVal st) (getScaleVal st)]
    else posted st.
Proof.
  unfold runOcrNow. destruct (hasImage st) eqn:Himg; cbn [negb]; [|done].
  destruct (selectFullImageRegion_frame st) as (_ & _ & H3 & _ & H5 & H6).
  destruct (degenerate _); cbn; [|done].
  rewrite H3. unfold getThresholdVal, getScaleVal. by rewrite H5, H6.
Qed.

Lemma request_in_range url st :
  crop_threshold url = getThresholdVal st ->
  crop_scale url = getScaleVal st ->
  in_slider_range (RunOcr url (getThresholdVal st) (getScaleVal st)).
Proof.
  intros H1 H2. unfold in_slider_range. cbn.
  destruct (clamp_threshold_range (thr_value st)).
  destruct (getScaleVal_range st). done.
Qed.

Lemma runOcrNow_range st :
  Forall in_slider_range (posted st) ->
  Forall in_slider_range (posted (runOcrNow st)).
Proof.
  intros H. rewrite runOcrNow_posted. destruct (hasImage st); [|done].
  apply Forall_app. split; [done|]. constructor; [|constructor].
  by apply request_in_range.
Qed.

Ltac break_ifs :=
  cbn;
  repeat match goal with
         | |- context [if ?b then _ else _] =>
             let E := fresh "E" in destruct b eqn:E; cbn in *
         end;
  try done; try congruence.

(** The fields of the state a handler other than the manual button
    leaves alone. *)
Lemma handle_posted now e st :
  e <> ClickOcr -> posted (handle now e st) = posted st.
Proof.
  intros He. destruct e as [v|v|x y|x y|x y| |m]; cbn [handle]; try done.
  - unfold onThrInput, scheduleOcr. break_ifs.
  - unfold onScaleInput, scheduleOcr. break_ifs.
  - unfold onMouseDown. break_ifs.
  - unfold onMouseMove. break_ifs.
  - unfold onMouseUp, scheduleOcr. break_ifs.
  - by destruct m.
Qed.

Lemma handle_hasImage now e st : hasImage (handle now e st) = hasImage st.
Proof.
  destruct e as [v|v|x y|x y|x y| |m]; cbn [handle].
  - unfold onThrInput, scheduleOcr. break_ifs.
  - unfold onScaleInput, scheduleOcr. break_ifs.
  - unfold onMouseDown. break_ifs.
  - unfold onMouseMove. break_ifs.
  - unfold onMouseUp, scheduleOcr. break_ifs.
  - destruct (busy (ui st)); [done|].
    unfold onClickOcr. destruct (hasImage st) eqn:H; cbn [negb]; [|exact H].
    destruct (runOcrNow_frame st) as [-> _]. exact H.
  - by destruct m.
Qed.

Lemma fire_frame st :
  hasImage (fire st) = hasImage st /\ ocrTimer (fire st) = None.
Proof.
  unfold fire. destruct (runOcrNow_frame (set_timer None st)) as (-> & -> & _).
  done.
Qed.

Lemma tick_hasImage now st : hasImage (tick now st) = hasImage st.
Proof.
  unfold tick. destruct (ocrTimer st) as [d|]; [|done].
  destruct (d <=? now); [|done]. apply fire_frame.
Qed.

Lemma thr_inputs_cons now v evs :
  thr_inputs ((now, v) :: evs) = (now, ThrInput v) :: thr_inputs evs.
Proof. reflexivity. Qed.

Lemma run_snoc st evs te : run st (evs ++ [te]) = step (run st evs) te.
Proof. unfold run. by rewrite fold_left_app. Qed.

End PanelMore.

Section PanelProperties.
Import Webview Protocol WebviewMore NumberFacts PanelMore.

(** X7.  The rectangle of a drag does not depend on its direction:
    dragging from the end point to the start point gives the same
    rectangle.  When there is one, its width and height are positive and
    its corner is the smaller of the two coordinates on each axis. *)
Theorem normalizedRect_direction_independent (st : state) :
  normalizedRect (swap_ends st) = normalizedRect st
  /\ forall r, normalizedRect st = Some r ->
       0 < w r /\ 0 < h r
       /\ x r <= startX (sel st) /\ x r <= endX (sel st)
       /\ y r <= startY (sel st) /\ y r <= endY (sel st)
       /\ Z.max (startX (sel st)) (endX (sel st)) = x r + w r
       /\ Z.max (startY (sel st)) (endY (sel st)) = y r + h r.
Proof.
  split.
  - unfold normalizedRect, swap_ends. cbn.
    rewrite (Z.min_comm (endX (sel st))), (Z.min_comm (endY (sel st))).
    replace (Z.abs (startX (sel st) - endX (sel st)))
      with (Z.abs (endX (sel st) - startX (sel st))) by lia.
    replace (Z.abs (startY (sel st) - endY (sel st)))
      with (Z.abs (endY (sel st) - startY (sel st))) by lia.
    done.
  - intros r. unfold normalizedRect.
    destruct (_ =? 0) eqn:Hw; [done|].
    destruct (Z.abs (endY _ - _) =? 0) eqn:Hh; [done|].
    cbn. intros [= <-]. cbn. lia.
Qed.

(** X8.  The threshold and the scale of every request lie in [0, 255] and
    [1, 4] whatever the sliders hold (NaN and infinities included): over
    any sequence of events, if the requests posted so far are in range, so
    are all the requests posted afterwards. *)
Theorem requests_stay_in_slider_range (st : state) (evs : list (Z * event)) :
  Forall in_slider_range (posted st) ->
  Forall in_slider_range (posted (settle (run st evs))).
Proof.
  intros H0.
  assert (Hfire : forall s, Forall in_slider_range (posted s) ->
                    Forall in_slider_range (posted (fire s))).
  { intros s Hs. unfold fire. by apply runOcrNow_range. }
  assert (Hrun : Forall in_slider_range (posted (run st evs))).
  { induction evs as [|te evs IH] using rev_ind; [done|].
    rewrite run_snoc. destruct te as [now e]. unfold step. cbn [fst snd].
    assert (Ht : Forall in_slider_range (posted (tick now (run st evs)))).
    { unfold tick. destruct (ocrTimer _) as [d|]; [|done].
      destruct (d <=? now); [by apply Hfire|done]. }
    destruct e as [v|v|x y|x y|x y| |m];
      try (rewrite handle_posted by discriminate; exact Ht).
    cbn [handle]. destruct (busy _); [exact Ht|]. unfold onClickOcr.
    destruct (hasImage _); cbn [negb]; [|done]. by apply runOcrNow_range. }
  unfold settle. destruct (ocrTimer _); [by apply Hfire|done].
Qed.



(** X11.  Threshold inputs that are at least 450 ms apart are not
    coalesced: starting with an image loaded and no timeout pending, each
    input produces its own request, in order, and each request carries the
    clamped value of its own input. *)
Theorem spaced_inputs_each_request
    (st : state) (t0 : Z) (v0 : float) (evs : list (Z * float)) :
  hasImage st = true ->
  ocrTimer st = None ->
  spaced t0 evs ->
  map threshold (posted (settle (run st (thr_inputs ((t0, v0) :: evs)))))
  = map threshold (posted st)
    ++ map clamp_threshold (v0 :: map snd evs).
Proof.
  intros Himg Htimer Hsp.
  assert (Hgen : forall evs s last,
    hasImage s = true -> ocrTimer s = Some (last + 450) -> spaced last evs ->
    map threshold (posted (settle (run s (thr_inputs evs))))
    = map threshold (posted s)
      ++ clamp_threshold (thr_value s) :: map clamp_threshold (map snd evs)).
  { clear. intros evs.
    induction evs as [|[now v] evs IH]; intros s last Himg Ht Hsp.
    - cbn. unfold settle. rewrite Ht. unfold fire.
      rewrite runOcrNow_posted. cbn. rewrite Himg.
      rewrite map_app. done.
    - cbn [spaced] in Hsp. destruct Hsp as [Hgap Hsp].
      rewrite thr_inputs_cons, SchedulerFacts.run_cons. cbn [map snd].
      assert (Htick : tick now s = fire s).
      { unfold tick. rewrite Ht.
        by rewrite (proj2 (Z.leb_le (last + 450) now)) by lia. }
      rewrite Htick.
      destruct (fire_frame s) as [Hfi Hft].
      assert (Hfp : posted (fire s)
                    = posted s ++ [RunOcr
                        (cropToDataUrl
                           (if degenerate (normalizedRect (set_timer None s))
                            then selectFullImageRegion (set_timer None s)
                            else set_timer None s)
                           (getThresholdVal s) (getScaleVal s))
                        (getThresholdVal s) (getScaleVal s)]).
      { unfold fire. rewrite runOcrNow_posted. cbn. by rewrite Himg. }
      set (s1 := fire s) in *.
      set (s2 := handle now (ThrInput v) s1).
      assert (H2 : hasImage s2 = true /\ ocrTimer s2 = Some (now + 450)
                   /\ posted s2 = posted s1 /\ thr_value s2 = v).
      { subst s2. cbn [handle]. unfold onThrInput, scheduleOcr. cbn.
        rewrite Hfi, Himg. cbn. rewrite Hfi, Himg. done. }
      destruct H2 as (H2i & H2t & H2p & H2v).
      rewrite (IH s2 now H2i H2t Hsp), H2p, Hfp, H2v.
      rewrite map_app, <- app_assoc. cbn. done. }
  rewrite thr_inputs_cons, SchedulerFacts.run_cons.
  assert (Htick : tick t0 st = st) by (unfold tick; by rewrite Htimer).
  rewrite Htick.
  set (s2 := handle t0 (ThrInput v0) st).
  assert (H2 : hasImage s2 = true /\ ocrTimer s2 = Some (t0 + 450)
               /\ posted s2 = posted st /\ thr_value s2 = v0).
  { subst s2. cbn [handle]. unfold onThrInput, scheduleOcr. cbn.
    rewrite Himg. cbn. rewrite ?Himg. done. }
  destruct H2 as (H2i & H2t & H2p & H2v).
  rewrite (Hgen evs s2 t0 H2i H2t Hsp), H2p, H2v. done.
Qed.

(** X12.  A selection of at least 2 by 2 is cropped exactly as drawn:
    [runOcrNow] leaves the selection as it is and posts one request for
    the normalized rectangle, with the current slider values. *)
Theorem selection_is_cropped_as_drawn (st : state) (r : rect) :
  hasImage st = true ->
  normalizedRect st = Some r ->
  2 <= w r -> 2 <= h r ->
  sel (runOcrNow st) = sel st
  /\ posted (runOcrNow st)
     = posted st ++
       [RunOcr (DataUrl (x r) (y r) (w r) (h r)
                  (getThresholdVal st) (getScaleVal st))
          (getThresholdVal st) (getScaleVal st)].
Proof.
  intros Himg Hr Hw Hh.
  assert (Hd : degenerate (normalizedRect st) = false).
  { rewrite Hr. cbn. apply orb_false_iff. split; apply Z.ltb_ge; lia. }
  split.
  - unfold runOcrNow. by rewrite Himg, Hd.
  - rewrite runOcrNow_posted, Himg, Hd. do 3 f_equal.
    unfold normalizedRect in Hr. unfold cropToDataUrl.
    destruct (_ || _); [done|]. injection Hr as <-. cbn in *.
    f_equal; lia.
Qed.

(** X13.  While the panel is not busy the reset button is enabled, and
    after a click on it the selection is empty, the result is cleared,
    and the next run recognizes the whole drawn image. *)
Theorem reset_then_run_uses_whole_image (st : state) (i : draw_info) :
  hasImage st = true ->
  busy (ui st) = false ->
  drawInfo st = Some i ->
  0 <= drawW i -> 0 <= drawH i ->
  normalizedRect (clickReset st) = None
  /\ output_value (ui (clickReset st)) = []
  /\ busy (ui (clickReset st)) = false
  /\ posted (runOcrNow (clickReset st))
     = posted st ++
       [RunOcr (DataUrl (offsetX i) (offsetY i)
                  (Z.max 1 (drawW i)) (Z.max 1 (drawH i))
                  (getThresholdVal st) (getScaleVal st))
          (getThresholdVal st) (getScaleVal st)].
Proof.
  intros Himg Hbusy Hinfo Hw Hh.
  unfold clickReset, onReset. rewrite Hbusy, Himg. cbn [negb].
  set (R := set_ui _ _).
  assert (Hn : normalizedRect R = None) by reflexivity.
  assert (Hi : hasImage R = true) by exact Himg.
  assert (Hd : drawInfo R = Some i) by exact Hinfo.
  split; [exact Hn|]. split; [reflexivity|]. split; [reflexivity|].
  rewrite runOcrNow_posted, Hn, Hi. cbn [degenerate].
  unfold selectFullImageRegion. rewrite Hd.
  unfold cropToDataUrl. cbn.
  do 3 f_equal. f_equal; lia.
Qed.

(** X14.  A mouse-down outside the drawn image does not start a drag:
    with no drag under way and no timeout pending, the mouse-down and any
    mouse moves and mouse-ups that follow leave the whole state as it
    was. *)
Theorem mouse_down_outside_is_ignored
    (st : state) (x0 y0 : Z) (t0 : Z) (evs : list (Z * event)) :
  withinImage st x0 y0 = false ->
  isDragging (sel st) = false ->
  ocrTimer st = None ->
  Forall (fun te => move_or_up (snd te)) evs ->
  run st ((t0, MouseDown x0 y0) :: evs) = st.
Proof.
  intros Hout Hdrag Htimer Hevs.
  rewrite SchedulerFacts.run_cons.
  assert (Htick : forall now, tick now st = st)
    by (intros now; unfold tick; by rewrite Htimer).
  rewrite Htick. cbn [handle]. unfold onMouseDown. rewrite Hout.
  replace (if negb (hasImage st) then st else if negb false then st else
             set_sel (Selection true x0 y0 x0 y0) st) with st
    by (by destruct (hasImage st)).
  induction Hevs as [|[now e] evs He _ IH]; [done|].
  rewrite SchedulerFacts.run_cons.
  rewrite Htick. cbn in He.
  destruct e; try done; cbn [handle].
  - unfold onMouseMove. by rewrite Hdrag.
  - unfold onMouseUp. by rewrite Hdrag.
Qed.

(** X15.  The manual button does not cancel a pending timeout: with an
    image loaded, the panel not busy (so that the button is enabled) and
    a timeout pending, a click that arrives before the timeout is due
    posts a request at once and leaves the timeout pending, and the
    timeout later posts a second request; both carry the slider values of
    the moment. *)
Theorem click_does_not_cancel_timeout (st : state) (now d : Z) :
  hasImage st = true ->
  busy (ui st) = false ->
  ocrTimer st = Some d ->
  now < d ->
  let st' := run st [(now, ClickOcr)] in
  map threshold (posted st') = map threshold (posted st) ++ [getThresholdVal st]
  /\ ocrTimer st' = Some d
  /\ map threshold (posted (settle st'))
     = map threshold (posted st) ++ [getThresholdVal st; getThresholdVal st]
  /\ map scale (posted (settle st'))
     = map scale (posted st) ++ [getScaleVal st; getScaleVal st].
Proof.
  intros Himg Hbusy Ht Hnow st'.
  assert (Hst' : st' = runOcrNow st).
  { subst st'. rewrite SchedulerFacts.run_cons.
    rewrite SchedulerFacts.tick_not_due by (by rewrite Ht).
    cbn [run fold_left handle]. rewrite Hbusy.
    unfold onClickOcr. by rewrite Himg. }
  rewrite Hst'. clear Hst' st'.
  destruct (runOcrNow_frame st) as (Hi & Hti & Hthr & Hsc & _).
  split; [rewrite runOcrNow_posted, Himg, map_app; done|].
  split; [by rewrite Hti|].
  unfold settle. rewrite Hti, Ht. unfold fire.
  rewrite runOcrNow_posted. cbn [hasImage set_timer].
  rewrite Hi, Himg.
  assert (HT : getThresholdVal (set_timer None (runOcrNow st))
               = getThresholdVal st)
    by (unfold getThresholdVal; cbn; by rewrite Hthr).
  assert (HS : getScaleVal (set_timer None (runOcrNow st)) = getScaleVal st)
    by (unfold getScaleVal; cbn; by rewrite Hsc).
  rewrite HT, HS. cbn [posted set_timer].
  rewrite (runOcrNow_posted st), Himg.
  rewrite !map_app, <- !app_assoc. cbn. done.
Qed.

End PanelProperties.

(** ** The browser extension over any sequence of events *)

Module ExtensionMore.
Import ContentScript ContentScriptLoop NumberFacts.

Lemma num_or_not_nan v d : is_nan d = false -> is_nan (num_or v d) = false.
Proof.
  intros Hd. unfold num_or. destruct (Js.truthy v) eqn:Hv; [|done].
  by apply truthy_not_nan.
Qed.

Lemma num_or_truthy v d : Js.truthy d = true -> Js.truthy (num_or v d) = true.
Proof. intros Hd. unfold num_or. by destruct (Js.truthy v) eqn:Hv. Qed.

Lemma getBoxRect_not_nan st :
  is_nan (x (getBoxRect st)) = false /\ is_nan (y (getBoxRect st)) = false
  /\ is_nan (w (getBoxRect st)) = false /\ is_nan (h (getBoxRect st)) = false.
Proof.
  unfold getBoxRect. destruct (box st); cbn; [|done].
  repeat split; by apply num_or_not_nan.
Qed.

(** A mouse-up sends at most one message, a well-formed one, and only
    together with the removal of the overlay. *)
Lemma onMouseUp_sends dpr st :
  Forall well_formed (snd (onMouseUp dpr st))
  /\ (snd (onMouseUp dpr st) = []
      \/ (length (snd (onMouseUp dpr st)) = 1%nat
          /\ overlay (fst (onMouseUp dpr st)) = false)).
Proof.
  unfold onMouseUp. destruct (active st) eqn:Hact; cbn [negb].
  - set (st1 := State (overlay st) (box st) (startX st) (startY st) false).
    destruct (getBoxRect_not_nan st1) as (Hx & Hy & Hw & Hh).
    destruct ((w (getBoxRect st1) <? 2)%float) eqn:Hw2; cbn [orb].
    + split; [constructor|by left].
    + destruct ((h (getBoxRect st1) <? 2)%float) eqn:Hh2.
      * split; [constructor|by left].
      * split; [|by right].
        constructor; [|constructor]. unfold well_formed. cbn.
        repeat split; try done.
        -- by apply not_ltb_leb.
        -- by apply not_ltb_leb.
        -- by apply num_or_truthy.
  - split; [constructor|by left].
Qed.

Lemma updateBox_overlay bx by_ bw bh st :
  overlay (updateBox bx by_ bw bh st) = overlay st.
Proof. unfold updateBox. by destruct (box st). Qed.

(** One event: the messages are well formed, and a message is paid for
    by the overlay that START_CROP created. *)
Lemma dispatch_step e st :
  Forall well_formed (snd (dispatch e st))
  /\ (length (snd (dispatch e st)) + overlay_count (fst (dispatch e st))
      <= overlay_count st + (if is_start e then 1 else 0))%nat.
Proof.
  destruct e as [|b cx cy|cx cy|dpr|esc]; cbn [dispatch is_start].
  - split; [constructor|]. cbn. unfold overlay_count. destruct (overlay st); lia.
  - destruct (overlay st) eqn:Hov; cbn [fst snd length];
      (split; [constructor|]); [|lia].
    unfold overlay_count, onMouseDown.
    destruct (negb (b =? 0)); rewrite ?updateBox_overlay; cbn [overlay];
      rewrite ?Hov; lia.
  - destruct (overlay st) eqn:Hov; cbn [fst snd length];
      (split; [constructor|]); [|lia].
    unfold overlay_count, onMouseMove.
    destruct (negb (active st)); rewrite ?updateBox_overlay, ?Hov; lia.
  - destruct (overlay st) eqn:Hov; cbn [fst snd length];
      [|split; [constructor|lia]].
    destruct (onMouseUp_sends dpr st) as [Hwf [Hs | [Hs Ho]]].
    + split; [exact Hwf|]. rewrite Hs. unfold overlay_count. rewrite Hov.
      cbn [length]. destruct (overlay (fst (onMouseUp dpr st))); lia.
    + split; [exact Hwf|]. rewrite Hs. unfold overlay_count.
      rewrite Ho, Hov. lia.
  - destruct (overlay st) eqn:Hov; cbn [fst snd length];
      (split; [constructor|]); [|lia].
    unfold overlay_count, onKeyDown.
    destruct esc; cbn [overlay removeOverlay]; rewrite ?Hov; lia.
Qed.

Lemma script_run_cons e evs st :
  run (e :: evs) st
  = (fst (run evs (fst (dispatch e st))),
     snd (dispatch e st) ++ snd (run evs (fst (dispatch e st)))).
Proof. reflexivity. Qed.

End ExtensionMore.

Section ExtensionProperties.
Import ContentScript ContentScriptLoop NumberFacts ExtensionMore.

(** X16.  Whatever the sequence of events, every CROP_DONE message the
    content script sends carries a rectangle of width and height at least
    2, coordinates that are numbers, and a device pixel ratio that is
    neither 0 nor NaN. *)
Theorem every_crop_done_is_well_formed (evs : list event) (st : state) :
  Forall well_formed (snd (run evs st)).
Proof.
  revert st. induction evs as [|e evs IH]; intros st; [constructor|].
  rewrite script_run_cons. cbn [snd]. apply Forall_app. split.
  - apply dispatch_step.
  - apply IH.
Qed.

(** X17.  One START_CROP gives at most one CROP_DONE: over any sequence
    of events, the number of messages sent is at most the number of
    START_CROP messages received, plus one if the overlay was already
    up. *)
Theorem one_crop_done_per_start (evs : list event) (st : state) :
  (length (snd (run evs st)) <= overlay_count st + starts evs)%nat.
Proof.
  assert (H : forall evs st,
    (length (snd (run evs st)) + overlay_count (fst (run evs st))
     <= overlay_count st + starts evs)%nat); [|specialize (H evs st); lia].
  clear. intros evs. induction evs as [|e evs IH]; intros st.
  - cbn. lia.
  - rewrite script_run_cons. cbn [fst snd]. rewrite length_app.
    specialize (IH (fst (dispatch e st))).
    destruct (dispatch_step e st) as [_ Hstep].
    unfold starts in *. cbn [List.filter].
    destruct (is_start e); cbn [length]; lia.
Qed.

(** X18.  Once the overlay is gone (after a selection, a degenerate
    selection or Escape), mouse and key events do nothing until the next
    START_CROP: the state stays as it is and nothing is sent.  In
    particular nothing is sent after Escape. *)
Theorem events_without_overlay_are_ignored (evs : list event) (st : state) :
  Forall (fun e => is_start e = false) evs ->
  (overlay st = false -> run evs st = (st, []))
  /\ snd (run (KeyDown true :: evs) st) = [].
Proof.
  intros Hev.
  assert (H : forall s, overlay s = false -> run evs s = (s, [])).
  { induction Hev as [|e evs He _ IH]; intros s Hs; [done|].
    rewrite script_run_cons.
    assert (Hd : dispatch e s = (s, [])).
    { destruct e; try done; cbn [dispatch]; by rewrite Hs. }
    rewrite Hd. cbn [fst snd]. by rewrite (IH s Hs). }
  split; [apply H|].
  rewrite script_run_cons. cbn [dispatch].
  destruct (overlay st) eqn:Hov; cbn [fst snd onKeyDown].
  - by rewrite (H (removeOverlay st) eq_refl).
  - by rewrite (H st Hov).
Qed.

(** X19.  A click is not a selection: a mouse-down followed directly by a
    mouse-up, with any button and at any position, sends nothing and
    removes the overlay when the left button was used. *)
Theorem click_sends_nothing
    (st : state) (button : Z) (cx cy dpr : float) :
  snd (run [StartCrop; MouseDown button cx cy; MouseUp dpr] st) = []
  /\ (button = 0 ->
      overlay (fst (run [StartCrop; MouseDown button cx cy; MouseUp dpr] st))
      = false).
Proof.
  cbn [run dispatch fst snd app].
  assert (Hov : overlay (createOverlay st) = true) by reflexivity.
  rewrite Hov. cbn [fst snd].
  unfold onMouseDown. destruct (button =? 0) eqn:Hb; cbn [negb].
  - set (s1 := updateBox cx cy 0 0 _).
    assert (H1 : overlay s1 = true /\ active s1 = true
                 /\ box s1 = Some (BoxStyle cx cy 0 0)) by done.
    destruct H1 as (H1o & H1a & H1b). rewrite H1o.
    unfold onMouseUp. rewrite H1a. cbn [negb].
    unfold getBoxRect at 1. cbn [box]. rewrite H1b. cbn [w].
    replace ((num_or 0 0 <? 2)%float) with true by reflexivity.
    cbn. done.
  - assert (Ha : active (createOverlay st) = active
                   (if overlay st then removeOverlay st else st))
      by reflexivity.
    rewrite Hov. unfold onMouseUp.
    destruct (active (createOverlay st)) eqn:Hact; cbn [negb fst snd].
    + unfold getBoxRect. cbn [box createOverlay].
      replace ((num_or 0 0 <? 2)%float) with true by reflexivity.
      cbn. split; [done|]. apply Z.eqb_neq in Hb. done.
    + split; [done|]. apply Z.eqb_neq in Hb. done.
Qed.

(** X20.  The popup never crops an empty or negative region: unless the
    product with dpr is NaN, the source rectangle computed from a
    CROP_DONE message has x and y of at least 0 and a width and height of
    at least 1; and a field is NaN only when its rounded product is. *)
Theorem source_rect_is_not_empty (m : crop_done) :
  let r := Popup.onCropDone m in
  (is_nan (Js.Math_round (m_x m * m_dpr m)) = false ->
     (0 <=? Popup.sx r)%float = true)
  /\ (is_nan (Js.Math_round (m_y m * m_dpr m)) = false ->
     (0 <=? Popup.sy r)%float = true)
  /\ (is_nan (Js.Math_round (m_w m * m_dpr m)) = false ->
     (1 <=? Popup.sw r)%float = true)
  /\ (is_nan (Js.Math_round (m_h m * m_dpr m)) = false ->
     (1 <=? Popup.sh r)%float = true)
  /\ is_nan (Popup.sw r) = is_nan (Js.Math_round (m_w m * m_dpr m))
  /\ is_nan (Popup.sh r) = is_nan (Js.Math_round (m_h m * m_dpr m)).
Proof.
  intros r. subst r. unfold Popup.onCropDone.
  cbn [Popup.sx Popup.sy Popup.sw Popup.sh].
  repeat split;
    try (intros H;
         by destruct (Math_max_spec _ _ (eq_refl : is_nan 0 = false) H)
              as (_ & ? & _));
    try (intros H;
         by destruct (Math_max_spec _ _ (eq_refl : is_nan 1 = false) H)
              as (_ & ? & _));
    by rewrite Math_max_nan.
Qed.

End ExtensionProperties.

(** ** Trimming *)

Module TrimFacts.
Import JsString.

Lemma trimStart_head s c s' : trimStart s = c :: s' -> is_ws c = false.
Proof.
  induction s as [|a s IH]; [done|]. cbn [trimStart].
  destruct (is_ws a) eqn:Ha; [exact IH|]. by intros [= <- _].
Qed.

Lemma trimStart_id s :
  (forall c s', s = c :: s' -> is_ws c = false) -> trimStart s = s.
Proof.
  destruct s as [|a s]; [done|]. intros H. cbn [trimStart].
  by rewrite (H a s eq_refl).
Qed.

Lemma trim_head s c s' : trim s = c :: s' -> is_ws c = false.
Proof.
  unfold trim, trimEnd. set (t := trimStart s).
  destruct (trimStart (rev t)) as [|a X] eqn:HX.
  { destruct t; done. }
  intros Hrev.
  destruct t as [|b t'] eqn:Ht.
  { cbn in HX. done. }
  (* the first character of the result is the first character of t *)
  assert (Hb : is_ws b = false) by (eapply trimStart_head; exact Ht).
  assert (Hsuf : forall u, exists p, u = p ++ trimStart u).
  { induction u as [|d u [p IH]]; [by exists []|]. cbn [trimStart].
    destruct (is_ws d); [exists (d :: p); cbn; by rewrite <- IH|by exists []]. }
  destruct (Hsuf (rev (b :: t'))) as [p Hp]. rewrite HX in Hp.
  apply (f_equal (@rev Z)) in Hp. rewrite rev_involutive, rev_app_distr in Hp.
  rewrite Hrev in Hp. cbn in Hp. by injection Hp as <- _.
Qed.

Lemma trim_last s s' c : trim s = s' ++ [c] -> is_ws c = false.
Proof.
  unfold trim, trimEnd. intros H.
  apply (f_equal (@rev Z)) in H. rewrite rev_involutive, rev_app_distr in H.
  cbn in H. by apply trimStart_head in H.
Qed.

Lemma trim_idempotent s : trim (trim s) = trim s.
Proof.
  unfold trim at 1.
  rewrite (trimStart_id (trim s)) by (intros c s'; apply trim_head).
  unfold trimEnd. rewrite trimStart_id; [apply rev_involutive|].
  intros c s' H. apply (f_equal (@rev Z)) in H.
  rewrite rev_involutive in H. cbn in H. by apply trim_last in H.
Qed.

End TrimFacts.

Section AdapterProperties.
Import OcrSpace TrimFacts.

(** X21.  The text returned by the panel's adapter and the text shown by
    the popup are trimmed: they neither start nor end with a whitespace
    character, and trimming them again changes nothing. *)
Theorem recognized_text_is_trimmed
    (res : response) (r : ExtensionHost.ocr_ok) (j : option json)
    (t : jsstring) (conf : option float) :
  (ExtensionHost.callOcrSpace res = ExtensionHost.Returned r ->
   (forall c s, ExtensionHost.text r = c :: s -> JsString.is_ws c = false)
   /\ (forall s c, ExtensionHost.text r = s ++ [c] ->
         JsString.is_ws c = false)
   /\ JsString.trim (ExtensionHost.text r) = ExtensionHost.text r)
  /\ (Popup.onClickOcr j = Popup.ShownText t conf ->
      (forall c s, t = c :: s -> JsString.is_ws c = false)
      /\ (forall s c, t = s ++ [c] -> JsString.is_ws c = false)
      /\ JsString.trim t = t).
Proof.
  split.
  - intros Hr.
    assert (H1 : exists u, ExtensionHost.text r = JsString.trim u).
    { unfold ExtensionHost.callOcrSpace in Hr.
      destruct (negb (ok res)); [done|].
      destruct (IsErroredOnProcessing (body res)); [done|].
      injection Hr as <-. cbn. eauto. }
    destruct H1 as [u ->].
    repeat split; eauto using trim_head, trim_last, trim_idempotent.
  - intros Ht.
    assert (H2 : exists u, t = JsString.trim u).
    { unfold Popup.onClickOcr in Ht.
      destruct (match j with Some d => _ | None => true end); [done|].
      injection Ht as <- _. eauto. }
    destruct H2 as [u ->].
    repeat split; eauto using trim_head, trim_last, trim_idempotent.
Qed.

(** X22.  The host answers every "run-ocr" message with exactly one of
    the two kinds of message: "ocr-result", carrying a text and the
    measured duration, exactly when the response has a success status and
    no processing-error flag, and "ocr-error" otherwise; the message of an
    "ocr-error" is never empty. *)
Theorem reply_is_result_or_error (res : response) (durationMs : Z) :
  (ok res = true /\ IsErroredOnProcessing (body res) = false ->
   exists text confidence,
     ExtensionHost.reply res durationMs
     = Protocol.OcrResult
         (Some (Protocol.Payload (Some text) confidence (Some durationMs))))
  /\ (ok res = false \/ IsErroredOnProcessing (body res) = true ->
      exists c message,
        ExtensionHost.reply res durationMs = Protocol.OcrError (c :: message)).
Proof.
  unfold ExtensionHost.reply, ExtensionHost.callOcrSpace. split.
  - intros [-> ->]. cbn. eauto.
  - assert (Herr : forall m, exists c message,
              Protocol.OcrError (ExtensionHost.error_string m)
              = Protocol.OcrError (c :: message)).
    { intros [|c m]; cbn; eauto. }
    intros [Hok | Hflag].
    + rewrite Hok. cbn [negb]. apply Herr.
    + destruct (negb (ok res)); [apply Herr|]. rewrite Hflag. apply Herr.
Qed.

End AdapterProperties.

(** ** The page component's recognition run *)

Section PageSessionProperties.
Import PageSession.

Lemma dispatch_lock e st : lock_matches st -> lock_matches (dispatch e st).
Proof.
  unfold lock_matches. intros H.
  destruct e; cbn [dispatch]; try exact H.
  - destruct (src st); exact H.
  - unfold button_disabled.
    destruct (negb (src st) || processing st || ocring st) eqn:Hd;
      [exact H|].
    apply orb_false_iff in Hd as [_ Ho]. unfold runOcr_start.
    destruct (negb processedDataUrl); cbn [outstanding ocring]; [exact H|].
    rewrite Ho in H. by rewrite H.
  - destruct (outstanding st) as [|n] eqn:Hn; [by rewrite Hn|].
    cbn. rewrite Hn. destruct (ocring st); [|done]. by injection H as ->.
  - destruct (outstanding st) as [|n] eqn:Hn; [by rewrite Hn|].
    cbn. rewrite Hn. destruct (ocring st); [|done]. by injection H as ->.
Qed.

(** X23.  The page component never has two recognitions running: over
    any sequence of events the number of outstanding calls is 0 or 1, it
    is 1 exactly while [ocring] is set (so the button stays disabled), and
    when the call settles, by a result or by a failure, the lock is
    released. *)
Theorem at_most_one_recognition (st : state) (evs : list event) :
  outstanding st = (if ocring st then 1%nat else 0%nat) ->
  let st' := run st evs in
  outstanding st' = (if ocring st' then 1%nat else 0%nat)
  /\ (outstanding st' <= 1)%nat
  /\ (ocring st' = true -> button_disabled st' = true)
  /\ (forall data d, ocring (dispatch (Resolved data d) st') = false)
  /\ (forall message, ocring (dispatch (Rejected message) st') = false).
Proof.
  intros H st'.
  assert (Hrun : lock_matches st').
  { subst st'. unfold run. revert st H.
    induction evs as [|e evs IH]; intros st H; [exact H|].
    cbn [fold_left]. apply IH. by apply dispatch_lock. }
  unfold lock_matches in Hrun. split; [exact Hrun|]. split.
  - rewrite Hrun. destruct (ocring st'); lia.
  - split.
    + intros Ho. unfold button_disabled. rewrite Ho. apply orb_true_r.
    + split; intros; cbn [dispatch];
        (destruct (outstanding st') eqn:Hn; [|reflexivity]);
        destruct (ocring st'); done.
Qed.

End PageSessionProperties.

(** ** The popup over any sequence of events *)

Section PopupProperties.
Import PopupSession.

Lemma error_text_not_empty message : Popup.error_text message <> [].
Proof. unfold Popup.error_text. done. Qed.

Lemma dispatch_copy e st : copy_has_text st -> copy_has_text (dispatch e st).
Proof.
  unfold copy_has_text. intros H.
  destruct e as [|m| |o elapsed]; cbn [dispatch].
  - done.
  - exact H.
  - destruct (btnOCR_disabled st); [exact H|].
    unfold onOcrClick. destruct (imgDataUrl st); exact H.
  - unfold onOcrSettled.
    destruct o as [message|j].
    + cbn. intros _. apply error_text_not_empty.
    + destruct (Popup.onClickOcr j) as [text conf|t] eqn:Hj; cbn.
      * by destruct text.
      * intros _. unfold Popup.onClickOcr in Hj.
        destruct (match j with Some d => _ | None => true end); [|done].
        injection Hj as <-. apply error_text_not_empty.
Qed.

(** X24.  In the popup the Copy button is never enabled over an empty
    text box: starting from a cleared popup, after any sequence of clears,
    crops, clicks and answers, if Copy is enabled the text is not empty;
    and every answer, good or bad, re-enables the OCR button. *)
Theorem copy_is_enabled_only_with_text (st : state) (evs : list event) :
  let st' := run (resetState st) evs in
  (btnCopy_disabled st' = false -> ocrText st' <> [])
  /\ forall o elapsed,
       btnOCR_disabled (dispatch (OcrSettled o elapsed) st') = false.
Proof.
  intros st'. split.
  - subst st'. unfold run.
    assert (H0 : copy_has_text (resetState st)) by done.
    revert H0. generalize (resetState st).
    induction evs as [|e evs IH]; intros s Hs; [exact Hs|].
    cbn [fold_left]. apply IH. by apply dispatch_copy.
  - intros o elapsed. cbn [dispatch]. unfold onOcrSettled.
    destruct o as [message|j]; [reflexivity|].
    by destruct (Popup.onClickOcr j).
Qed.

End PopupProperties.

(** ** The properties above at concrete inputs *)

Lemma output_channels_are_equal_witness :
  exists v,
    preprocess (Config true true false 160 2) [10; 200; 30; 128] !! 0%nat
      = Some v
    /\ preprocess (Config true true false 160 2) [10; 200; 30; 128] !! 1%nat
       = Some v
    /\ preprocess (Config true true false 160 2) [10; 200; 30; 128] !! 2%nat
       = Some v.
Proof.
  apply (output_channels_are_equal (Config true true false 160 2)
           [10; 200; 30; 128] 0); [reflexivity|cbn; lia].
Defined.

Lemma threshold_output_is_binary_witness : 255 = 0 \/ 255 = 255.
Proof.
  apply (threshold_output_is_binary (Config true true true 160 2)
           [10; 200; 30; 128] 0 255);
    [reflexivity|cbn; lia|vm_compute; reflexivity].
Defined.

Lemma threshold_is_monotone_witness : 0 <= 255.
Proof.
  apply (threshold_is_monotone true 2 100 200 [10; 200; 30; 128] 0 255 0);
    [lia|vm_compute; reflexivity|vm_compute; reflexivity].
Defined.

Lemma preprocess_is_idempotent_witness :
  preprocess (Config true false true 160 2)
    (preprocess (Config true false true 160 2) [10; 200; 30; 128])
  = preprocess (Config true false true 160 2) [10; 200; 30; 128].
Proof.
  apply (preprocess_is_idempotent (Config true false true 160 2)
           [10; 200; 30; 128]); [reflexivity|cbn; lia|reflexivity].
Defined.

Lemma binarize_output_pixel_witness :
  exists v, (v = 0 \/ v = 255)
    /\ Webview.binarize 160 [10; 200; 30; 128] !! (4 * 0)%nat = Some v
    /\ Webview.binarize 160 [10; 200; 30; 128] !! (4 * 0 + 1)%nat = Some v
    /\ Webview.binarize 160 [10; 200; 30; 128] !! (4 * 0 + 2)%nat = Some v
    /\ Webview.binarize 160 [10; 200; 30; 128] !! (4 * 0 + 3)%nat = Some 255.
Proof.
  apply (binarize_output_pixel 160 [10; 200; 30; 128] 0). cbn. lia.
Defined.

Lemma requests_stay_in_slider_range_witness :
  Forall WebviewMore.in_slider_range
    (Webview.posted
       (Webview.settle
          (Webview.run (panel_with_image (Webview.DrawInfo 0 0 800 400))
             [(0, Webview.ThrInput nan); (500, Webview.ScaleInput infinity)]))).
Proof.
  apply (requests_stay_in_slider_range
           (panel_with_image (Webview.DrawInfo 0 0 800 400))
           [(0, Webview.ThrInput nan); (500, Webview.ScaleInput infinity)]).
  constructor.
Defined.


Lemma spaced_inputs_each_request_witness :
  map Protocol.threshold
    (Webview.posted
       (Webview.settle
          (Webview.run (panel_with_image (Webview.DrawInfo 0 0 800 400))
             (WebviewMore.thr_inputs
                [(0, 100%float); (450, 300%float); (1000, 50%float)]))))
  = map Protocol.threshold
      (Webview.posted (panel_with_image (Webview.DrawInfo 0 0 800 400)))
    ++ map WebviewMore.clamp_threshold
         (100%float :: map snd [(450, 300%float); (1000, 50%float)]).
Proof.
  apply (spaced_inputs_each_request
           (panel_with_image (Webview.DrawInfo 0 0 800 400))
           0 100%float [(450, 300%float); (1000, 50%float)]);
    [reflexivity|reflexivity|cbn; lia].
Defined.

Lemma selection_is_cropped_as_drawn_witness :
  let st := Webview.State true (Webview.Selection false 100 60 10 10)
              (Some (Webview.DrawInfo 0 0 800 400)) 160 2 None
              (Webview.Display [] Webview.ConfDash Webview.DurDash true false)
              [] in
  Webview.sel (Webview.runOcrNow st) = Webview.sel st
  /\ Webview.posted (Webview.runOcrNow st)
     = Webview.posted st ++
       [Protocol.RunOcr
          (Protocol.DataUrl 10 10 90 50
             (Webview.getThresholdVal st) (Webview.getScaleVal st))
          (Webview.getThresholdVal st) (Webview.getScaleVal st)].
Proof.
  apply (selection_is_cropped_as_drawn
           (Webview.State true (Webview.Selection false 100 60 10 10)
              (Some (Webview.DrawInfo 0 0 800 400)) 160 2 None
              (Webview.Display [] Webview.ConfDash Webview.DurDash true false)
              [])
           (Webview.Rect 10 10 90 50));
    [reflexivity|reflexivity|cbn; lia|cbn; lia].
Defined.

Lemma reset_then_run_uses_whole_image_witness :
  let st := Webview.State true (Webview.Selection false 100 60 10 10)
              (Some (Webview.DrawInfo 20 0 760 400)) 160 2 None
              (Webview.Display (JsString.lit "AB12") Webview.ConfNA
                 (Webview.DurMs 30) false false)
              [] in
  Webview.normalizedRect (WebviewMore.clickReset st) = None
  /\ Webview.output_value (Webview.ui (WebviewMore.clickReset st)) = []
  /\ Webview.busy (Webview.ui (WebviewMore.clickReset st)) = false
  /\ Webview.posted (Webview.runOcrNow (WebviewMore.clickReset st))
     = Webview.posted st ++
       [Protocol.RunOcr
          (Protocol.DataUrl 20 0 (Z.max 1 760) (Z.max 1 400)
             (Webview.getThresholdVal st) (Webview.getScaleVal st))
          (Webview.getThresholdVal st) (Webview.getScaleVal st)].
Proof.
  apply (reset_then_run_uses_whole_image
           (Webview.State true (Webview.Selection false 100 60 10 10)
              (Some (Webview.DrawInfo 20 0 760 400)) 160 2 None
              (Webview.Display (JsString.lit "AB12") Webview.ConfNA
                 (Webview.DurMs 30) false false)
              [])
           (Webview.DrawInfo 20 0 760 400));
    [reflexivity|reflexivity|reflexivity|cbn; lia|cbn; lia].
Defined.

Lemma mouse_down_outside_is_ignored_witness :
  Webview.run (panel_with_image (Webview.DrawInfo 100 100 200 100))
    [(0, Webview.MouseDown 5 5); (10, Webview.MouseMove 50 50);
     (20, Webview.MouseUp 60 60)]
  = panel_with_image (Webview.DrawInfo 100 100 200 100).
Proof.
  apply (mouse_down_outside_is_ignored
           (panel_with_image (Webview.DrawInfo 100 100 200 100)) 5 5 0
           [(10, Webview.MouseMove 50 50); (20, Webview.MouseUp 60 60)]);
    [reflexivity|reflexivity|reflexivity|].
  repeat constructor.
Defined.

Lemma click_does_not_cancel_timeout_witness :
  let st := Webview.set_timer (Some 450)
              (panel_with_image (Webview.DrawInfo 0 0 800 400)) in
  let st' := Webview.run st [(100, Webview.ClickOcr)] in
  map Protocol.threshold (Webview.posted st') = [160%float]
  /\ Webview.ocrTimer st' = Some 450
  /\ map Protocol.threshold (Webview.posted (Webview.settle st'))
     = [160%float; 160%float]
  /\ map Protocol.scale (Webview.posted (Webview.settle st'))
     = [2%float; 2%float].
Proof.
  apply (click_does_not_cancel_timeout
           (Webview.set_timer (Some 450)
              (panel_with_image (Webview.DrawInfo 0 0 800 400))) 100 450);
    [reflexivity|reflexivity|reflexivity|lia].
Defined.

(** While a request is in flight the manual button is disabled: a second
    click is not delivered, and the request of the first click is the only
    one. *)
Example click_while_busy_is_not_delivered :
  let st := panel_with_image (Webview.DrawInfo 0 0 800 400) in
  length (Webview.posted
            (Webview.run st [(0, Webview.ClickOcr); (50, Webview.ClickOcr)]))
  = 1%nat.
Proof. reflexivity. Qed.

Lemma events_without_overlay_are_ignored_witness :
  snd (ContentScriptLoop.run
         [ContentScriptLoop.KeyDown true;
          ContentScriptLoop.MouseMove 40 40; ContentScriptLoop.MouseUp 1]
         drag_3_by_5) = [].
Proof.
  apply (events_without_overlay_are_ignored
           [ContentScriptLoop.MouseMove 40 40; ContentScriptLoop.MouseUp 1]
           drag_3_by_5).
  repeat constructor.
Defined.

Lemma recognized_text_is_trimmed_witness :
  JsString.trim (JsString.lit "AB 12") = JsString.lit "AB 12".
Proof.
  destruct (recognized_text_is_trimmed
           (OcrSpace.Response true []
              (OcrSpace.Json false OcrSpace.EMAbsent
                 [OcrSpace.ParsedResult (Some (JsString.lit "  AB 12 "))
                    None None]))
           (ExtensionHost.OcrOk (JsString.lit "AB 12") None)
           None (JsString.lit "AB 12") None) as [H _].
  apply H. vm_compute. reflexivity.
Defined.

Lemma at_most_one_recognition_witness :
  let st' := PageSession.run PageSession.initial
               [PageSession.FileChosen; PageSession.SrcLoaded;
                PageSession.DrawStarted; PageSession.DrawLoaded;
                PageSession.ClickRun true; PageSession.ClickRun true] in
  (PageSession.outstanding st' <= 1)%nat.
Proof.
  apply (at_most_one_recognition PageSession.initial
           [PageSession.FileChosen; PageSession.SrcLoaded;
            PageSession.DrawStarted; PageSession.DrawLoaded;
            PageSession.ClickRun true; PageSession.ClickRun true]).
  reflexivity.
Defined.

(** Two clicks in a row: the second finds the button disabled, and one
    call is outstanding. *)
Example second_click_is_not_delivered :
  PageSession.outstanding
    (PageSession.run PageSession.initial
       [PageSession.FileChosen; PageSession.SrcLoaded;
        PageSession.DrawStarted; PageSession.DrawLoaded;
        PageSession.ClickRun true; PageSession.ClickRun true]) = 1%nat.
Proof. reflexivity. Qed.
